(** * RideSwift cab booking application: fare, workflow and projections

    A shallow embedding of [src/CabBookingApp.jsx].  The Firestore
    collection is a finite map from document identifiers to booking
    documents, React state is passed explicitly, and the handlers
    ([handleEstimate], [handleBooking], [handleUpdateStatus]) are
    functions from the state they read to the state they leave. *)

From Stdlib Require Import ZArith QArith Qround Lia Permutation Sorted.
From stdpp Require Import gmap strings list pretty.

Local Open Scope Z_scope.

(** ** JavaScript numbers used by the fare estimate

    Numbers are integers and rationals here.  The values the estimate
    goes through are integers below 2^53 and their hundredths, on which
    the double arithmetic of the source yields the same numerals. *)

Module JS.

(** [ToInt32]: reduce modulo 2^32 into the signed range. *)
Definition toInt32 (z : Z) : Z := (z + 2 ^ 31) mod 2 ^ 32 - 2 ^ 31.

(** [a << n] on numbers: the left operand goes through [ToInt32], the
    shifted value is again an int32. *)
Definition shl (a n : Z) : Z := toInt32 (Z.shiftl (toInt32 a) n).

(** [x % y], which takes the sign of the dividend. *)
Definition rem (x y : Z) : Z := Z.rem x y.

(** The text produced by [Number.prototype.toFixed]: a decimal numeral
    with [places] fractional digits, kept as its count of units of
    [10^-places] ([units = 2000], [places = 2] is the text "20.00"). *)
Record Fixed : Type := mkFixed { units : Z; places : nat }.

Definition pow10 (f : nat) : Z := 10 ^ Z.of_nat f.

(** [x.toFixed(f)] for a number [x] of moderate size: the integer [n]
    with [n / 10^f] closest to [x], the larger one on a tie, the sign
    being handled apart. *)
Definition toFixed (f : nat) (x : Q) : Fixed :=
  let scaled (y : Q) := Qfloor (y * inject_Z (pow10 f) + (1 # 2))%Q in
  if Qle_bool 0 x then mkFixed (scaled x) f
  else mkFixed (- scaled (- x)%Q) f.

(** [parseFloat] of such a numeral. *)
Definition parseFloat (d : Fixed) : Q :=
  (inject_Z (units d) / inject_Z (pow10 (places d)))%Q.

(** The characters of the numeral, for template strings. *)
Definition padFraction (f : nat) (digits : string) : string :=
  String.concat "" (replicate (f - String.length digits) "0"%string) +:+ digits.

Definition showFixed (d : Fixed) : string :=
  let p := pow10 (places d) in
  let a := Z.abs (units d) in
  let whole := pretty (a / p) in
  let sign := if units d <? 0 then "-"%string else ""%string in
  match places d with
  | O => sign +:+ whole
  | S _ => sign +:+ whole +:+ "." +:+ padFraction (places d) (pretty (a mod p))
  end.

(** A string as the sequence of its UTF-16 code units, the values
    [charCodeAt] returns. *)
Definition charCodes (s : string) : list Z :=
  (λ c, Z.of_nat (Ascii.nat_of_ascii c)) <$> String.list_ascii_of_string s.

End JS.

(** ** Pricing table and mock distance *)

(** [VEHICLE_RATES]: base fare and rate per kilometre, in cents. *)
Record Rate : Type := mkRate { base : Z; rate : Z }.

Definition VEHICLE_RATES (vehicleType : string) : option Rate :=
  if String.eqb vehicleType "Cab" then Some (mkRate 500 150)
  else if String.eqb vehicleType "Auto" then Some (mkRate 200 100)
  else if String.eqb vehicleType "Bike" then Some (mkRate 100 50)
  else if String.eqb vehicleType "Taxi" then Some (mkRate 600 180)
  else None.

(** [hash]: [s.split('').reduce((a, b) => ((a << 5) - a) + b.charCodeAt(0), 0)].
    Only the shift wraps to 32 bits; the subtraction and the sum are
    plain number arithmetic, which is exact on integers below 2^53, a
    bound the running value keeps for any text of less than 2^21 code
    units (lemma [hash_magnitude]). *)
Definition hashStep (a b : Z) : Z := (JS.shl a 5 - a) + b.

Definition hash (s : list Z) : Z := fold_left hashStep s 0.

(** [dist] of [mockDistance], before it is formatted. *)
Definition mockDist (pickup dropoff : list Z) : Z :=
  JS.rem (Z.abs (hash pickup - hash dropoff)) 20 + 5.

(** [mockDistance]: [dist.toFixed(1)]. *)
Definition mockDistance (pickup dropoff : list Z) : JS.Fixed :=
  JS.toFixed 1 (inject_Z (mockDist pickup dropoff)).

(** The fare of [handleEstimate]:
    [((base + parseFloat(dist) * rate) / 100).toFixed(2)]. *)
Definition fareNumber (r : Rate) (dist : JS.Fixed) : Q :=
  ((inject_Z (base r) + JS.parseFloat dist * inject_Z (rate r)) / 100)%Q.

Definition fareEstimateOf (vehicleType : string) (dist : JS.Fixed) : option JS.Fixed :=
  r ← VEHICLE_RATES vehicleType; Some (JS.toFixed 2 (fareNumber r dist)).


(** ** Identities and booking documents *)

(** The fields of a Firebase user the application reads. *)
Record User : Type := mkUser {
  uid : string;
  email : option string;
  isAnonymous : bool
}.

(** The document [handleBooking] stores.  [createdAt] is a time in
    milliseconds; [distance] and [fare] are the formatted texts. *)
Record BookingDoc : Type := mkBookingDoc {
  userId : string;
  userEmail : string;
  pickup : string;
  dropoff : string;
  vehicleType : string;
  distance : string;
  fare : string;
  dateTime : string;
  status : string;
  createdAt : Z;
  paymentStatus : string
}.

(** A row of [allBookings]: [{ id: doc.id, ...doc.data() }].  The extra
    [bookingDate] key of the source is [undefined] on every row, no
    document having such a field. *)
Record Booking : Type := mkBooking { id : string; data : BookingDoc }.

#[global] Instance BookingDoc_eq_dec : EqDecision BookingDoc.
Proof. solve_decision. Defined.

#[global] Instance Booking_eq_dec : EqDecision Booking.
Proof. solve_decision. Defined.

(** JavaScript truthiness of a string: only the empty string is falsy. *)
Definition truthy (s : string) : bool := negb (String.eqb s "").

(** ** The bookings collection *)

(** The collection [artifacts/<appId>/public/data/bookings], keyed by
    document id. *)
Abbreviation Store := (gmap string BookingDoc).

Inductive StoreError : Type := NotFound.

(** Modelled from the spec: Firestore's [addDoc], a collaborator whose
    code is not part of the sources.  The store contract's [create]
    "appends a new document" under the identifier the store assigns,
    here [newId]. *)
Definition addDoc (store : Store) (newId : string) (d : BookingDoc) : Store :=
  <[newId := d]> store.

(** [{ ...d, status: newStatus }], the merge of the one-field partial
    document into [d]. *)
Definition withStatus (newStatus : string) (d : BookingDoc) : BookingDoc :=
  {| userId := userId d; userEmail := userEmail d; pickup := pickup d;
     dropoff := dropoff d; vehicleType := vehicleType d;
     distance := distance d; fare := fare d; dateTime := dateTime d;
     status := newStatus; createdAt := createdAt d;
     paymentStatus := paymentStatus d |}.

(** Modelled from the spec: Firestore's [updateDoc], a collaborator
    whose code is not part of the sources, as the source calls it,
    [updateDoc(docRef, { status: newStatus })].  The store contract's
    [updateFields] "merges named fields into the existing document;
    fails with NotFound if id is absent". *)
Definition updateDoc (store : Store) (docId newStatus : string)
  : StoreError + Store :=
  match store !! docId with
  | Some d => inr (<[docId := withStatus newStatus d]> store)
  | None => inl NotFound
  end.

(** ** Sorting as [Array.prototype.sort] does *)

Section JsSort.
Context {A : Type} (compareFn : A → A → Z).

(** [x] comes from an earlier position than the elements of [l]; it is
    put before the first element it must not follow, so that elements
    comparing equal keep their order (the sort is stable). *)
Fixpoint jsInsert (x : A) (l : list A) : list A :=
  match l with
  | [] => [x]
  | y :: l' => if compareFn x y <=? 0 then x :: l else y :: jsInsert x l'
  end.

Fixpoint jsSort (l : list A) : list A :=
  match l with
  | [] => []
  | x :: l' => jsInsert x (jsSort l')
  end.
End JsSort.

(** ** [useBookings] *)

Definition toBooking (doc : string * BookingDoc) : Booking :=
  mkBooking doc.1 doc.2.

(** [(a, b) => b.createdAt - a.createdAt]: newest first. *)
Definition byCreatedAtDesc (a b : Booking) : Z :=
  createdAt (data b) - createdAt (data a).

(** The snapshot listener: map the delivered documents to rows, sort
    them, and keep them as [bookings]. *)
Definition onBookingsSnapshot (docs : list (string * BookingDoc)) : list Booking :=
  jsSort byCreatedAtDesc (toBooking <$> docs).

(** [bookings] as [useBookings(db, userId)] holds it: empty without a
    user id or before a snapshot (none ever comes without [db]), else
    the rows of the last snapshot. *)
Definition useBookings (userId : option string)
    (delivered : option (list (string * BookingDoc))) : list Booking :=
  match userId, delivered with
  | Some u, Some docs => if truthy u then onBookingsSnapshot docs else []
  | _, _ => []
  end.

(** ** Rider dashboard *)

Inductive UserView : Type :=
  | NotAuthenticatedMessage
  | UserDashboard (isBookingsLoading : bool) (userBookings : list Booking).

(** [b => b.userId === user.uid] *)
Definition ownedBy (viewer : string) (b : Booking) : Prop :=
  userId (data b) = viewer.

#[global] Instance ownedBy_dec (viewer : string) (b : Booking) :
  Decision (ownedBy viewer b).
Proof. unfold ownedBy. apply _. Defined.

(** [bookings.filter(b => b.userId === user.uid)] *)
Definition userBookingsOf (viewer : string) (bookings : list Booking) : list Booking :=
  filter (ownedBy viewer) bookings.

Definition UserDashboardView (user : option User) (bookings : list Booking)
    (isBookingsLoading : bool) : UserView :=
  match user with
  | None => NotAuthenticatedMessage
  | Some u =>
      if isAnonymous u then NotAuthenticatedMessage
      else UserDashboard isBookingsLoading (userBookingsOf (uid u) bookings)
  end.

(** ** Admin panel *)

(** [user?.email === 'admin@cabapp.com'] *)
Definition isAdmin (user : option User) : bool :=
  match user with
  | Some u =>
      match email u with
      | Some e => String.eqb e "admin@cabapp.com"
      | None => false
      end
  | None => false
  end.

(** The pages the header links to, [navItems.filter(item => item.show)]. *)
Definition navPages (user : option User) : list string :=
  ["home"%string]
  ++ (if default false (negb ∘ isAnonymous <$> user) then ["dashboard"%string] else [])
  ++ (if isAdmin user then ["admin"%string] else [])
  ++ ["contact"%string].

(** The buttons of one table row, each named by the status its
    [onClick] passes to [handleUpdateStatus]. *)
Definition statusButtons (status : string) : list string :=
  (if String.eqb status "Pending" then ["Accepted"%string] else [])
  ++ (if String.eqb status "Accepted" then ["Completed"%string] else [])
  ++ (if negb (String.eqb status "Canceled") && negb (String.eqb status "Completed")
      then ["Canceled"%string] else []).

(** What the admin page renders; a table row carries the closures
    [() => handleUpdateStatus(b.id, target)] of its buttons as pairs. *)
Inductive AdminView : Type :=
  | AccessDenied
  | AdminLoading
  | AdminTable (rows : list (Booking * list (string * string))).

Definition adminRow (b : Booking) : Booking * list (string * string) :=
  (b, (λ target, (id b, target)) <$> statusButtons (status (data b))).

Definition AdminDashboardView (user : option User) (bookings : list Booking)
    (isBookingsLoading : bool) : AdminView :=
  if negb (isAdmin user) then AccessDenied
  else if isBookingsLoading then AdminLoading
  else AdminTable (adminRow <$> bookings).

(** Every button on the page. *)
Definition adminButtons (view : AdminView) : list (string * string) :=
  match view with
  | AdminTable rows => rows ≫= snd
  | _ => []
  end.

Definition adminRows (view : AdminView) : list Booking :=
  match view with
  | AdminTable rows => fst <$> rows
  | _ => []
  end.

(** How an attempt to change a status ends. *)
Inductive Outcome : Type :=
  | StatusUpdated     (* the write went through; [console.log] *)
  | UpdateFailed      (* the write was rejected; [alert("Failed to update status ...")] *)
  | Denied            (* the page shows "Access Denied" *)
  | NoSuchButton.     (* the page has no button for the request *)

(** [handleUpdateStatus(id, newStatus)] *)
Definition handleUpdateStatus (store : Store) (docId newStatus : string)
  : Outcome * Store :=
  match updateDoc store docId newStatus with
  | inr store' => (StatusUpdated, store')
  | inl NotFound => (UpdateFailed, store)
  end.

(** A request to move booking [docId] to [target], made on the admin
    page of [user] while it shows [bookings]. *)
Definition adminTransition (user : option User) (bookings : list Booking)
    (isBookingsLoading : bool) (store : Store) (docId target : string)
  : Outcome * Store :=
  match AdminDashboardView user bookings isBookingsLoading with
  | AccessDenied => (Denied, store)
  | view =>
      if decide ((docId, target) ∈ adminButtons view)
      then handleUpdateStatus store docId target
      else (NoSuchButton, store)
  end.

(** ** Booking form *)

Record HomeState : Type := mkHomeState {
  h_pickup : string;
  h_dropoff : string;
  h_vehicleType : string;
  h_date : string;
  h_time : string;
  h_fareEstimate : option JS.Fixed;
  h_distance : option JS.Fixed;
  h_isEstimating : bool;
  h_error : option string
}.

(** What a handler of the home page leaves behind. *)
Record Effects : Type := mkEffects {
  e_home : HomeState;
  e_store : Store;
  e_alerts : list string;
  e_page : option string;          (* [setCurrentPage], when called *)
  e_timer : option JS.Fixed        (* the pending [setFareEstimate] *)
}.

Definition setEstimate (h : HomeState) (fareEstimate : option JS.Fixed)
    (distance : option JS.Fixed) (isEstimating : bool) (error : option string)
  : HomeState :=
  mkHomeState (h_pickup h) (h_dropoff h) (h_vehicleType h) (h_date h) (h_time h)
    fareEstimate distance isEstimating error.

(** [handleEstimate]: the state right after the call and the fare the
    timer will set.  A vehicle type outside the table makes the
    destructuring throw once the first setters have run: no timer is
    started then. *)
Definition handleEstimate (h : HomeState) : HomeState * option JS.Fixed :=
  if negb (truthy (h_pickup h)) || negb (truthy (h_dropoff h)) then
    (setEstimate h None (h_distance h) (h_isEstimating h)
       (Some "Please enter both pickup and drop-off locations."%string), None)
  else
    let dist := mockDistance (JS.charCodes (h_pickup h)) (JS.charCodes (h_dropoff h)) in
    (setEstimate h (h_fareEstimate h) (Some dist) true None,
     fareEstimateOf (h_vehicleType h) dist).

(** The timer of [handleEstimate] firing. *)
Definition estimateReady (fare : JS.Fixed) (h : HomeState) : HomeState :=
  setEstimate h (Some fare) (h_distance h) false (h_error h).

Definition showOpt (d : option JS.Fixed) : string :=
  match d with
  | Some x => JS.showFixed x
  | None => "null"
  end.

(** The [newBooking] object literal.  [dateTime] keeps the date and the
    time as the form holds them; their conversion to an ISO instant
    plays no part in what follows. *)
Definition newBooking (u : User) (h : HomeState) (fareEstimate : JS.Fixed) (now : Z)
  : BookingDoc :=
  {| userId := uid u;
     userEmail := default "Anonymous User"%string
                    (e ← email u; if truthy e then Some e else None);
     pickup := h_pickup h;
     dropoff := h_dropoff h;
     vehicleType := h_vehicleType h;
     distance := showOpt (h_distance h) +:+ " km";
     fare := "$" +:+ JS.showFixed fareEstimate;
     dateTime := h_date h +:+ "T" +:+ h_time h;
     status := "Pending";
     createdAt := now;
     paymentStatus := "Pending" |}.

(** [handleBooking], for a write the store accepts under [newId] at
    time [now]. *)
Definition handleBooking (user : option User) (h : HomeState) (store : Store)
    (newId : string) (now : Z) : Effects :=
  match user with
  | Some u =>
      if isAnonymous u then
        mkEffects h store ["Please log in or sign up to complete a booking."%string]
          (Some "login"%string) None
      else
        match h_fareEstimate h with
        | None =>
            let est := handleEstimate h in
            mkEffects est.1 store [] None est.2
        | Some fareEstimate =>
            mkEffects
              (mkHomeState "" "" (h_vehicleType h) (h_date h) (h_time h)
                 None None (h_isEstimating h) None)
              (addDoc store newId (newBooking u h fareEstimate now))
              ["Booking successful! Check My Bookings for status updates."%string]
              (Some "dashboard"%string) None
        end
  | None =>
      mkEffects h store ["Please log in or sign up to complete a booking."%string]
        (Some "login"%string) None
  end.

(** ** The system: every write the application can issue *)

(** The workflow table of the specification. *)
Definition workflowEdge (current target : string) : Prop :=
  (current, target) ∈
    [("Pending", "Accepted"); ("Accepted", "Completed");
     ("Pending", "Canceled"); ("Accepted", "Canceled")]%string.

Definition validStatus (s : string) : Prop :=
  s ∈ ["Pending"; "Accepted"; "Completed"; "Canceled"]%string.

Definition terminalStatus (s : string) : Prop :=
  s ∈ ["Completed"; "Canceled"]%string.

Definition statusesValid (store : Store) : Prop :=
  ∀ i d, store !! i = Some d → validStatus (status d).

(** The rows a page shows agree with the collection. *)
Definition upToDate (store : Store) (bookings : list Booking) : Prop :=
  ∀ b, b ∈ bookings → store !! id b = Some (data b).

(** A page may also show an older snapshot. *)
Definition anySnapshot (store : Store) (bookings : list Booking) : Prop := True.

(** One write to the collection: a booking form submitted, under an
    identifier new to the store, or a request on an admin page whose
    rows stand in relation [shows] to the collection. *)
Inductive step (shows : Store → list Booking → Prop) : Store → Store → Prop :=
  | step_booking user h newId now store :
      store !! newId = None →
      step shows store (e_store (handleBooking user h store newId now))
  | step_transition user bookings isBookingsLoading docId target store :
      shows store bookings →
      step shows store
        (adminTransition user bookings isBookingsLoading store docId target).2.

(** Descending [createdAt]: [a] may be listed before [b]. *)
Definition newestFirst (a b : Booking) : Prop :=
  createdAt (data b) ≤ createdAt (data a).

(** ** Controls of the booking form *)

(** [vehicleOptions], the vehicle buttons of the form. *)
Definition vehicleOptions : list string := ["Cab"; "Auto"; "Bike"; "Taxi"]%string.

(** The form as [HomeView] first renders it; [date] and [time] are the
    texts taken from the clock. *)
Definition initialHome (date time : string) : HomeState :=
  mkHomeState "" "" "Cab" date time None None false None.

(** [onChange] of the pickup input: [setPickup(e.target.value)]. *)
Definition setPickup (value : string) (h : HomeState) : HomeState :=
  mkHomeState value (h_dropoff h) (h_vehicleType h) (h_date h) (h_time h)
    (h_fareEstimate h) (h_distance h) (h_isEstimating h) (h_error h).

(** [onChange] of the drop-off input: [setDropoff(e.target.value)]. *)
Definition setDropoff (value : string) (h : HomeState) : HomeState :=
  mkHomeState (h_pickup h) value (h_vehicleType h) (h_date h) (h_time h)
    (h_fareEstimate h) (h_distance h) (h_isEstimating h) (h_error h).

(** [onClick] of a vehicle button:
    [setVehicleType(type); setFareEstimate(null)]. *)
Definition selectVehicle (type : string) (h : HomeState) : HomeState :=
  mkHomeState (h_pickup h) (h_dropoff h) type (h_date h) (h_time h)
    None (h_distance h) (h_isEstimating h) (h_error h).

(** [disabled] of the Estimate Fare button:
    [isEstimating || !pickup || !dropoff]. *)
Definition estimateDisabled (h : HomeState) : bool :=
  h_isEstimating h || negb (truthy (h_pickup h)) || negb (truthy (h_dropoff h)).

(** [disabled] of the Book Now button: [!fareEstimate || isEstimating].
    An estimate, when present, is a numeral and so a truthy text. *)
Definition bookDisabled (h : HomeState) : bool :=
  (if h_fareEstimate h is Some _ then false else true) || h_isEstimating h.

(** [onChange] of the date and time inputs. *)
Definition setDate (value : string) (h : HomeState) : HomeState :=
  mkHomeState (h_pickup h) (h_dropoff h) (h_vehicleType h) value (h_time h)
    (h_fareEstimate h) (h_distance h) (h_isEstimating h) (h_error h).

Definition setTime (value : string) (h : HomeState) : HomeState :=
  mkHomeState (h_pickup h) (h_dropoff h) (h_vehicleType h) (h_date h) value
    (h_fareEstimate h) (h_distance h) (h_isEstimating h) (h_error h).

(** The form with the timers [handleEstimate] has started and that
    have not fired yet. *)
Record Form : Type := mkForm { form_state : HomeState; form_timers : list JS.Fixed }.

(** What the user and the clock can do to the form: type in an input,
    pick one of the vehicle buttons, click a button that is enabled,
    or let a pending timer fire. *)
Inductive formStep : Form → Form → Prop :=
  | form_pickup value h timers :
      formStep (mkForm h timers) (mkForm (setPickup value h) timers)
  | form_dropoff value h timers :
      formStep (mkForm h timers) (mkForm (setDropoff value h) timers)
  | form_date value h timers :
      formStep (mkForm h timers) (mkForm (setDate value h) timers)
  | form_time value h timers :
      formStep (mkForm h timers) (mkForm (setTime value h) timers)
  | form_vehicle type h timers :
      type ∈ vehicleOptions →
      formStep (mkForm h timers) (mkForm (selectVehicle type h) timers)
  | form_estimate h timers :
      estimateDisabled h = false →
      formStep (mkForm h timers)
        (mkForm (handleEstimate h).1 (timers ++ option_list (handleEstimate h).2))
  | form_timer fare h before after :
      formStep (mkForm h (before ++ fare :: after))
        (mkForm (estimateReady fare h) (before ++ after))
  | form_book user store newId now h timers :
      bookDisabled h = false →
      formStep (mkForm h timers)
        (mkForm (e_home (handleBooking user h store newId now))
           (timers ++ option_list (e_timer (handleBooking user h store newId now)))).

(** What every form reached through [formStep] satisfies: a priced
    vehicle type, a distance beside every estimate, and exactly one
    pending timer while estimating, none otherwise. *)
Definition formInv (f : Form) : Prop :=
  h_vehicleType (form_state f) ∈ vehicleOptions
  ∧ (is_Some (h_fareEstimate (form_state f)) → is_Some (h_distance (form_state f)))
  ∧ (if h_isEstimating (form_state f)
     then is_Some (h_distance (form_state f)) ∧ ∃ fare, form_timers f = [fare]
     else form_timers f = []).

(** ** Price list of [VehicleDetailsView] *)

(** One card of the [vehicles] table: its type and the two price texts
    (icon and description are presentation only). *)
Record VehicleCard : Type := mkVehicleCard {
  c_type : string;
  c_rate : string;
  c_base : string
}.

Definition vehicles : list VehicleCard :=
  [ mkVehicleCard "Cab" "$1.50/km" "$5.00";
    mkVehicleCard "Auto" "$1.00/km" "$2.00";
    mkVehicleCard "Bike" "$0.50/km" "$1.00";
    mkVehicleCard "Taxi" "$1.80/km" "$6.00" ].

(** An amount of cents as the dollar text of the price list. *)
Definition dollars (cents : Z) : string :=
  "$" +:+ JS.showFixed (JS.toFixed 2 (inject_Z cents / 100)%Q).

(** ** Status colours *)

Module RiderPage.
(** [getStatusClasses] of [UserDashboardView]. *)
Definition getStatusClasses (status : string) : string :=
  if String.eqb status "Accepted"
  then "bg-blue-100 text-blue-800 dark:bg-blue-900 dark:text-blue-200"
  else if String.eqb status "Completed"
  then "bg-green-100 text-green-800 dark:bg-green-900 dark:text-green-200"
  else if String.eqb status "Canceled"
  then "bg-red-100 text-red-800 dark:bg-red-900 dark:text-red-200"
  else "bg-yellow-100 text-yellow-800 dark:bg-yellow-900 dark:text-yellow-200".
End RiderPage.

Module AdminPage.
(** [getStatusClasses] of [AdminDashboardView]. *)
Definition getStatusClasses (status : string) : string :=
  if String.eqb status "Accepted" then "bg-blue-500"
  else if String.eqb status "Completed" then "bg-green-500"
  else if String.eqb status "Canceled" then "bg-red-500"
  else "bg-yellow-500".
End AdminPage.

(** ** Routing *)

(** What [renderPage] returns.  The dashboards carry what they show;
    the other pages take nothing from the bookings. *)
Inductive Page : Type :=
  | LoadingSpinner
  | HomePage
  | VehicleDetailsPage
  | LoginPage
  | DashboardPage (view : UserView)
  | AdminPanelPage (view : AdminView)
  | ContactPage.

(** [renderPage] of [App]. *)
Definition renderPage (isLoading : bool) (currentPage : string)
    (user : option User) (bookings : list Booking) (isBookingsLoading : bool)
  : Page :=
  if isLoading then LoadingSpinner
  else if String.eqb currentPage "home" then HomePage
  else if String.eqb currentPage "vehicle-details" then VehicleDetailsPage
  else if String.eqb currentPage "login" then LoginPage
  else if String.eqb currentPage "dashboard"
  then DashboardPage (UserDashboardView user bookings isBookingsLoading)
  else if String.eqb currentPage "admin"
  then AdminPanelPage (AdminDashboardView user bookings isBookingsLoading)
  else if String.eqb currentPage "contact" then ContactPage
  else HomePage.

(** The bookings a rendered page puts on screen: the list of the rider
    dashboard (a spinner stands for it while the bookings load) and the
    table of the admin page. *)
Definition displayedBookings (page : Page) : list Booking :=
  match page with
  | DashboardPage (UserDashboard isBookingsLoading userBookings) =>
      if isBookingsLoading then [] else userBookings
  | AdminPanelPage view => adminRows view
  | _ => []
  end.

(** ** Authentication *)

(** How a call to the identity provider ends: with the signed-in user,
    or with the error it throws ([err.code], [err.message]). *)
Inductive AuthReply : Type :=
  | AuthOk (u : User)
  | AuthFailed (code message : string).

Record FirebaseState : Type := mkFirebaseState {
  f_user : option User;
  f_isLoading : bool
}.

(** The listener [useFirebase] hands to [onAuthStateChanged], for an
    [initialAuthToken] and the way [signInAnonymously] ends.  With a
    token the listener only awaits [signInWithCustomToken]: whether it
    succeeds or throws, no setter but [setIsLoading] runs. *)
Definition onAuthStateChanged (initialAuthToken : option string)
    (anonymous : AuthReply) (currentUser : option User) (st : FirebaseState)
  : FirebaseState :=
  match currentUser with
  | Some u => mkFirebaseState (Some u) false
  | None =>
      if default false (truthy <$> initialAuthToken)
      then mkFirebaseState (f_user st) false
      else
        match anonymous with
        | AuthOk u => mkFirebaseState (Some u) false
        | AuthFailed _ _ => mkFirebaseState (f_user st) false
        end
  end.

(** The label of the header's account button:
    [!user || user.isAnonymous ? Login/Signup : Sign Out]. *)
Definition accountButton (user : option User) : string :=
  match user with
  | Some u => if isAnonymous u then "Login/Signup" else "Sign Out"
  | None => "Login/Signup"
  end.

(** ** Login and signup form *)

Record LoginState : Type := mkLoginState {
  l_isLogin : bool;
  l_email : string;
  l_password : string;
  l_error : string;
  l_isLoading : bool
}.

(** The message the [catch] of [handleSubmit] sets for an error. *)
Definition authErrorMessage (code message : string) : string :=
  if String.eqb code "auth/email-already-in-use"
  then "This email is already in use. Try logging in."
  else if String.eqb code "auth/invalid-email"
          || String.eqb code "auth/weak-password"
          || String.eqb code "auth/user-not-found"
          || String.eqb code "auth/wrong-password"
  then "Invalid credentials or password is too weak (min 6 characters)."
  else "Authentication failed: " +:+ message.

(** [handleSubmit] of [LoginSignupView], for the ways
    [signInWithEmailAndPassword] and [createUserWithEmailAndPassword]
    would end: the form state it leaves and the page it navigates to,
    if any. *)
Definition handleSubmit (signIn signUp : AuthReply) (st : LoginState)
  : LoginState * option string :=
  match (if l_isLogin st then signIn else signUp) with
  | AuthOk _ =>
      (mkLoginState (l_isLogin st) (l_email st) (l_password st) "" false,
       Some "home"%string)
  | AuthFailed code message =>
      (mkLoginState (l_isLogin st) (l_email st) (l_password st)
         (authErrorMessage code message) false,
       None)
  end.

(** [onClick] of the link under the form:
    [setIsLogin(!isLogin); setError('')]. *)
Definition toggleLogin (st : LoginState) : LoginState :=
  mkLoginState (negb (l_isLogin st)) (l_email st) (l_password st) ""
    (l_isLoading st).

(** ** Sample data *)

Definition adminUser : User := mkUser "A1" (Some "admin@cabapp.com"%string) false.
Definition riderUser : User := mkUser "U1" (Some "rider@example.com"%string) false.
Definition guestUser : User := mkUser "G1" None true.

Definition rideOf (owner status : string) (created : Z) : BookingDoc :=
  mkBookingDoc owner "rider@example.com" "Downtown Office" "Airport Terminal 3"
    "Cab" "17.0 km" "$30.50" "2025-01-01T09:30" status created "Pending".

Definition sampleForm : HomeState :=
  mkHomeState "Downtown Office" "Airport Terminal 3" "Cab" "2025-01-01" "09:30"
    (Some (JS.mkFixed 3050 2)) (Some (JS.mkFixed 170 1)) false None.

Definition storeWith (status : string) : Store :=
  {[ "b1"%string := rideOf "U1" status 1000 ]}.

(** Membership in a literal list of statuses, by cases. *)
Ltac status_cases :=
  rewrite ?elem_of_cons, ?elem_of_nil;
  intuition (subst; try congruence; try discriminate).

(** * Properties *)

(** ** Arithmetic of the estimate *)

Lemma Qfloor_half (c : Z) : Qfloor (inject_Z c + (1 # 2)) = c.
Proof.
  unfold Qfloor, Qplus, inject_Z; simpl.
  rewrite Z.mul_1_r. symmetry.
  apply (Z.div_unique_pos _ _ _ 1); lia.
Qed.

Lemma toFixed_scaled (f : nat) (x : Q) (c : Z) :
  (x * inject_Z (JS.pow10 f) == inject_Z c)%Q →
  JS.toFixed f x = JS.mkFixed c f.
Proof.
  intros Hx. unfold JS.toFixed.
  assert (Hp : (0 < inject_Z (JS.pow10 f))%Q).
  { unfold JS.pow10. rewrite <- (Zlt_Qlt 0). lia. }
  destruct (Qle_bool 0 x) eqn:Hs; f_equal.
  - rewrite Hx. apply Qfloor_half.
  - assert (H : (- x * inject_Z (JS.pow10 f) + (1 # 2) == inject_Z (- c) + (1 # 2))%Q).
    { rewrite inject_Z_opp, <- Hx. ring. }
    rewrite H, Qfloor_half. lia.
Qed.

Lemma toFixed_integer (f : nat) (n : Z) :
  JS.toFixed f (inject_Z n) = JS.mkFixed (n * JS.pow10 f) f.
Proof. apply toFixed_scaled. now rewrite inject_Z_mult. Qed.

Lemma parseFloat_toFixed_integer (f : nat) (n : Z) :
  (JS.parseFloat (JS.toFixed f (inject_Z n)) == inject_Z n)%Q.
Proof.
  rewrite toFixed_integer. unfold JS.parseFloat; simpl.
  rewrite inject_Z_mult. field.
  unfold JS.pow10. intros H.
  assert (H0 : (0 < inject_Z (10 ^ Z.of_nat f))%Q) by (rewrite <- (Zlt_Qlt 0); lia).
  rewrite H in H0. now apply Qlt_irrefl in H0.
Qed.

Lemma fareNumber_whole (r : Rate) (km : Z) :
  (fareNumber r (JS.toFixed 1 (inject_Z km)) * inject_Z (JS.pow10 2)
   == inject_Z (base r + rate r * km))%Q.
Proof.
  unfold fareNumber. rewrite parseFloat_toFixed_integer.
  rewrite inject_Z_plus, inject_Z_mult.
  change (inject_Z (JS.pow10 2)) with 100%Q. field.
Qed.

Lemma VEHICLE_RATES_inv (vehicleType : string) (r : Rate) :
  VEHICLE_RATES vehicleType = Some r →
  (vehicleType, r) ∈ [("Cab", mkRate 500 150); ("Auto", mkRate 200 100);
                      ("Bike", mkRate 100 50); ("Taxi", mkRate 600 180)]%string.
Proof.
  unfold VEHICLE_RATES.
  repeat match goal with
    | |- context [String.eqb vehicleType ?s] =>
        destruct (String.eqb_spec vehicleType s) as [-> | _];
        [ intros [= <-]; set_solver | ]
    end.
  discriminate.
Qed.

Lemma mockDist_range (pickup dropoff : list Z) :
  5 ≤ mockDist pickup dropoff ≤ 24.
Proof.
  unfold mockDist, JS.rem.
  pose proof (Z.rem_bound_pos (Z.abs (hash pickup - hash dropoff)) 20) as H.
  lia.
Qed.

Lemma toInt32_range (z : Z) : - 2 ^ 31 ≤ JS.toInt32 z < 2 ^ 31.
Proof.
  unfold JS.toInt32.
  pose proof (Z.mod_pos_bound (z + 2 ^ 31) (2 ^ 32)). lia.
Qed.

Lemma hashStep_bound (a b : Z) :
  0 ≤ b < 65536 → Z.abs (hashStep a b) ≤ Z.abs a + (2 ^ 31 + 65535).
Proof.
  intros Hb. unfold hashStep, JS.shl.
  pose proof (toInt32_range (Z.shiftl (JS.toInt32 a) 5)). lia.
Qed.

Lemma fold_hashStep_bound (s : list Z) (a : Z) :
  Forall (λ c, 0 ≤ c < 65536) s →
  Z.abs (fold_left hashStep s a) ≤ Z.abs a + Z.of_nat (length s) * (2 ^ 31 + 65535).
Proof.
  intros Hs. revert a.
  induction Hs as [| c s Hc _ IH]; intros a; simpl fold_left.
  - simpl. lia.
  - specialize (IH (hashStep a c)).
    pose proof (hashStep_bound a c Hc).
    rewrite length_cons, Nat2Z.inj_succ. lia.
Qed.

(** The running value of [hash] stays an integer far below 2^53 for any
    text of less than two million code units, so the number arithmetic
    of the source coincides with the integer arithmetic used here. *)
Lemma hash_magnitude (s : list Z) :
  Forall (λ c, 0 ≤ c < 65536) s →
  Z.abs (hash s) ≤ Z.of_nat (length s) * (2 ^ 31 + 65535).
Proof. intros Hs. apply (fold_hashStep_bound s 0 Hs). Qed.

Lemma mockDistance_whole (pickup dropoff : list Z) :
  mockDistance pickup dropoff = JS.mkFixed (10 * mockDist pickup dropoff) 1.
Proof.
  unfold mockDistance. rewrite toFixed_integer. f_equal.
  unfold JS.pow10. simpl. lia.
Qed.

Lemma fareEstimateOf_whole (vehicleType : string) (r : Rate) (km : Z) :
  VEHICLE_RATES vehicleType = Some r →
  fareEstimateOf vehicleType (JS.toFixed 1 (inject_Z km))
  = Some (JS.mkFixed (base r + rate r * km) 2).
Proof.
  intros Hr. unfold fareEstimateOf. rewrite Hr. simpl. f_equal.
  apply toFixed_scaled, fareNumber_whole.
Qed.

(** C4.  The fare estimate is a function of the vehicle type and the
    distance alone, and for a vehicle type of the pricing table and a
    distance of [km] kilometres (as [mockDistance] formats it, "km.0")
    it is the two-decimal numeral of [(base + rate * km) / 100], that
    is base fare plus rate times distance in currency units; for a Cab
    and 10.0 km it is "20.00". *)
Theorem fare_is_base_plus_rate_times_distance
    (vehicleType : string) (r : Rate) (km : Z) :
  VEHICLE_RATES vehicleType = Some r →
  let dist := JS.toFixed 1 (inject_Z km) in
  ∃ fare,
    fareEstimateOf vehicleType dist = Some fare
    ∧ fare = JS.mkFixed (base r + rate r * km) 2
    ∧ (JS.parseFloat fare
       == inject_Z (base r) / 100 + inject_Z (rate r) / 100 * JS.parseFloat dist)%Q
    ∧ fareEstimateOf "Cab" (JS.mkFixed 100 1) = Some (JS.mkFixed 2000 2)
    ∧ JS.showFixed (JS.mkFixed 2000 2) = "20.00"%string.
Proof.
  intros Hr dist. exists (JS.mkFixed (base r + rate r * km) 2).
  split; [ now apply fareEstimateOf_whole | ].
  split; [ reflexivity | ].
  split.
  - subst dist. rewrite parseFloat_toFixed_integer.
    unfold JS.parseFloat; simpl.
    rewrite inject_Z_plus, inject_Z_mult.
    change (inject_Z (JS.pow10 2)) with 100%Q. field.
  - split.
    + change (JS.mkFixed 100 1) with (JS.mkFixed (10 * JS.pow10 1) 1).
      rewrite <- toFixed_integer.
      now rewrite (fareEstimateOf_whole "Cab" (mkRate 500 150) 10).
    + vm_compute. reflexivity.
Qed.

Lemma fare_is_base_plus_rate_times_distance_witness :
  ∃ fare,
    fareEstimateOf "Taxi" (JS.toFixed 1 (inject_Z 7)) = Some fare
    ∧ fare = JS.mkFixed 1860 2.
Proof.
  destruct (fare_is_base_plus_rate_times_distance "Taxi" (mkRate 600 180) 7)
    as (fare & Hfare & Heq & _).
  - reflexivity.
  - exists fare. split; [ exact Hfare | exact Heq ].
Defined.

(** C10.  The mock distance is a function of the two texts; it is a
    whole number of kilometres from 5 to 24 written with one decimal,
    hence between 5.0 and 24.9; it is exactly 5.0 when pickup and
    drop-off are the same text; and the fare estimated from it is
    strictly positive for every vehicle type of the pricing table. *)
Theorem mockDistance_between_5_and_25 (pickup dropoff : list Z) :
  let d := mockDistance pickup dropoff in
  d = JS.mkFixed (10 * mockDist pickup dropoff) 1
  ∧ 5 ≤ mockDist pickup dropoff ≤ 24
  ∧ JS.places d = 1%nat
  ∧ 50 ≤ JS.units d ≤ 249
  ∧ mockDistance pickup pickup = JS.mkFixed 50 1
  ∧ ∀ vehicleType,
      match fareEstimateOf vehicleType d with
      | Some fare => 0 < JS.units fare ∧ JS.places fare = 2%nat
      | None => VEHICLE_RATES vehicleType = None
      end.
Proof.
  intros d. subst d.
  pose proof (mockDist_range pickup dropoff) as Hr.
  rewrite mockDistance_whole. simpl.
  repeat split; try lia.
  - rewrite mockDistance_whole. unfold mockDist, JS.rem.
    rewrite Z.sub_diag. reflexivity.
  - intros vehicleType.
    rewrite <- mockDistance_whole. unfold mockDistance.
    destruct (VEHICLE_RATES vehicleType) as [r |] eqn:Hv.
    + rewrite (fareEstimateOf_whole _ _ _ Hv). simpl. split; [ | reflexivity ].
      apply VEHICLE_RATES_inv in Hv.
      set_unfold in Hv.
      destruct Hv as [[= _ ->] | [[= _ ->] | [[= _ ->] | [[= _ ->] | []]]]]; simpl; lia.
    + unfold fareEstimateOf. rewrite Hv. reflexivity.
Qed.

(** ** The sort *)

Section JsSortFacts.
Context {A : Type} (compareFn : A → A → Z).

(** [precedes x y]: the comparator lets [x] stand before [y]. *)
Let precedes (x y : A) : Prop := compareFn x y ≤ 0.

Hypothesis precedes_total : ∀ x y, precedes x y ∨ precedes y x.
Hypothesis precedes_trans : ∀ x y z, precedes x y → precedes y z → precedes x z.

Lemma jsInsert_Permutation (x : A) (l : list A) :
  jsInsert compareFn x l ≡ₚ x :: l.
Proof.
  induction l as [| y l IH]; simpl; [ done | ].
  destruct (compareFn x y <=? 0); [ done | ].
  rewrite IH. apply Permutation_swap.
Qed.

Lemma jsSort_Permutation (l : list A) : jsSort compareFn l ≡ₚ l.
Proof.
  induction l as [| x l IH]; simpl; [ done | ].
  rewrite jsInsert_Permutation. by f_equiv.
Qed.

Lemma jsInsert_sorted (x : A) (l : list A) :
  StronglySorted precedes l → StronglySorted precedes (jsInsert compareFn x l).
Proof.
  induction 1 as [| y l Hl IH Hy]; simpl.
  - repeat constructor.
  - destruct (Z.leb_spec (compareFn x y) 0) as [Hxy | Hxy].
    + constructor; [ by constructor | ].
      constructor; [ exact Hxy | ].
      eapply Forall_impl; [ exact Hy | ].
      intros z Hz. by apply (precedes_trans x y z).
    + constructor; [ exact IH | ].
      rewrite jsInsert_Permutation. constructor; [ | exact Hy ].
      destruct (precedes_total x y) as [H | H]; [ unfold precedes in H; lia | exact H ].
Qed.

Lemma jsSort_sorted (l : list A) : StronglySorted precedes (jsSort compareFn l).
Proof.
  induction l as [| x l IH]; simpl; [ constructor | by apply jsInsert_sorted ].
Qed.

Lemma jsInsert_front (x : A) (l : list A) :
  Forall (precedes x) l → jsInsert compareFn x l = x :: l.
Proof.
  destruct 1 as [| y l Hy _]; simpl; [ done | ].
  destruct (Z.leb_spec (compareFn x y) 0); [ done | unfold precedes in Hy; lia ].
Qed.

Context (P : A → Prop) `{!∀ x, Decision (P x)}.

Lemma filter_jsInsert (x : A) (l : list A) :
  StronglySorted precedes l →
  filter P (jsInsert compareFn x l)
  = if decide (P x) then jsInsert compareFn x (filter P l) else filter P l.
Proof.
  induction 1 as [| y l Hl IH Hy]; simpl.
  - rewrite filter_cons, filter_nil. by destruct (decide (P x)).
  - destruct (Z.leb_spec (compareFn x y) 0) as [Hxy | Hxy].
    + rewrite filter_cons. destruct (decide (P x)); [ | done ].
      symmetry. apply jsInsert_front.
      apply Forall_forall. intros z Hz.
      apply list_elem_of_filter in Hz as [_ Hz].
      apply elem_of_cons in Hz as [-> | Hz]; [ exact Hxy | ].
      apply (precedes_trans x y z Hxy).
      by eapply Forall_forall in Hy.
    + rewrite !(filter_cons _ y), IH.
      destruct (decide (P y)), (decide (P x)); simpl; try done.
      destruct (Z.leb_spec (compareFn x y) 0); [ lia | done ].
Qed.

(** Sorting and filtering commute: stability keeps the kept elements
    in the order the sort gives them. *)
Lemma filter_jsSort (l : list A) :
  filter P (jsSort compareFn l) = jsSort compareFn (filter P l).
Proof.
  induction l as [| x l IH]; simpl; [ done | ].
  rewrite filter_jsInsert by apply jsSort_sorted.
  rewrite filter_cons, IH. by destruct (decide (P x)).
Qed.
End JsSortFacts.

(** ** Projections *)

Lemma byCreatedAtDesc_total (a b : Booking) :
  byCreatedAtDesc a b ≤ 0 ∨ byCreatedAtDesc b a ≤ 0.
Proof. unfold byCreatedAtDesc. lia. Qed.

Lemma byCreatedAtDesc_trans (a b c : Booking) :
  byCreatedAtDesc a b ≤ 0 → byCreatedAtDesc b c ≤ 0 → byCreatedAtDesc a c ≤ 0.
Proof. unfold byCreatedAtDesc. lia. Qed.

Lemma jsSort_newestFirst (l : list Booking) :
  StronglySorted newestFirst (jsSort byCreatedAtDesc l).
Proof.
  pose proof (jsSort_sorted byCreatedAtDesc byCreatedAtDesc_total
                byCreatedAtDesc_trans l) as H.
  eapply StronglySorted_ind with (P := StronglySorted newestFirst) in H;
    [ exact H | constructor | ].
  intros a l' _ Hl' Ha. constructor; [ exact Hl' | ].
  eapply Forall_impl; [ exact Ha | ].
  intros b Hb. unfold newestFirst, byCreatedAtDesc in *. lia.
Qed.

Lemma onBookingsSnapshot_Permutation (docs : list (string * BookingDoc)) :
  onBookingsSnapshot docs ≡ₚ toBooking <$> docs.
Proof. apply jsSort_Permutation. Qed.

Lemma StronglySorted_filter {A : Type} (R : A → A → Prop) (P : A → Prop)
    `{!∀ x, Decision (P x)} (l : list A) :
  StronglySorted R l → StronglySorted R (filter P l).
Proof.
  induction 1 as [| x l Hl IH Hx]; [ constructor | ].
  rewrite filter_cons. destruct (decide (P x)); [ | exact IH ].
  constructor; [ exact IH | ].
  apply Forall_forall. intros y [_ Hy]%list_elem_of_filter.
  by eapply Forall_forall in Hx.
Qed.

(** C5.  For every delivered snapshot and every viewer, the rider
    projection is the sort by descending [createdAt] of exactly the
    snapshot's records whose [userId] is the viewer: it has the same
    records with the same multiplicity, each unchanged, newest first;
    it is the empty list exactly when the viewer owns no record of the
    snapshot; and it is what the dashboard of a signed-in viewer
    shows. *)
Theorem rider_projection_exact
    (viewer : string) (docs : list (string * BookingDoc)) :
  let shown := userBookingsOf viewer (onBookingsSnapshot docs) in
  let owned := filter (ownedBy viewer) (toBooking <$> docs) in
  shown = jsSort byCreatedAtDesc owned
  ∧ shown ≡ₚ owned
  ∧ StronglySorted newestFirst shown
  ∧ (∀ b, b ∈ shown ↔ b ∈ toBooking <$> docs ∧ userId (data b) = viewer)
  ∧ (shown = [] ↔ owned = [])
  ∧ (∀ e loading,
       UserDashboardView (Some (mkUser viewer e false)) (onBookingsSnapshot docs) loading
       = UserDashboard loading shown).
Proof.
  intros shown owned.
  assert (Heq : shown = jsSort byCreatedAtDesc owned).
  { apply (filter_jsSort byCreatedAtDesc byCreatedAtDesc_total byCreatedAtDesc_trans). }
  assert (Hperm : shown ≡ₚ owned).
  { rewrite Heq. apply jsSort_Permutation. }
  split; [ exact Heq | ].
  split; [ exact Hperm | ].
  split; [ rewrite Heq; apply jsSort_newestFirst | ].
  split.
  - intros b. rewrite Hperm. unfold owned, ownedBy.
    rewrite list_elem_of_filter. tauto.
  - split; [ | reflexivity ].
    split; intros H.
    + apply Permutation_nil_r. by rewrite <- Hperm, H.
    + apply Permutation_nil_r. by rewrite Hperm, H.
Qed.

(** C6.  For every delivered snapshot, the table of the admin page
    lists the whole snapshot, no record left out or added, ordered by
    descending [createdAt]. *)
Theorem admin_projection_full
    (user : option User) (docs : list (string * BookingDoc)) :
  isAdmin user = true →
  let shown :=
    adminRows (AdminDashboardView user (onBookingsSnapshot docs) false) in
  shown = jsSort byCreatedAtDesc (toBooking <$> docs)
  ∧ shown ≡ₚ toBooking <$> docs
  ∧ length shown = length docs
  ∧ StronglySorted newestFirst shown.
Proof.
  intros Hadmin shown.
  assert (Heq : shown = onBookingsSnapshot docs).
  { unfold shown, AdminDashboardView. rewrite Hadmin. simpl.
    rewrite <- list_fmap_compose. apply list_fmap_id. }
  rewrite Heq. unfold onBookingsSnapshot.
  split; [ reflexivity | ].
  split; [ apply jsSort_Permutation | ].
  split; [ | apply jsSort_newestFirst ].
  rewrite jsSort_Permutation. apply length_fmap.
Qed.

Lemma admin_projection_full_witness :
  adminRows (AdminDashboardView (Some adminUser)
               (onBookingsSnapshot [("b1"%string, rideOf "U1" "Pending" 1000);
                                    ("b2"%string, rideOf "U2" "Accepted" 2000)])
               false)
  = [mkBooking "b2" (rideOf "U2" "Accepted" 2000);
     mkBooking "b1" (rideOf "U1" "Pending" 1000)].
Proof.
  refine (eq_trans (proj1
    (admin_projection_full (Some adminUser)
       [("b1"%string, rideOf "U1" "Pending" 1000);
        ("b2"%string, rideOf "U2" "Accepted" 2000)] _)) _).
  - reflexivity.
  - reflexivity.
Defined.

(** ** The status workflow *)

Lemma handleUpdateStatus_found (store : Store) (docId target : string) (d : BookingDoc) :
  store !! docId = Some d →
  handleUpdateStatus store docId target
  = (StatusUpdated, <[docId := withStatus target d]> store).
Proof. intros H. unfold handleUpdateStatus, updateDoc. by rewrite H. Qed.

Lemma handleUpdateStatus_missing (store : Store) (docId target : string) :
  store !! docId = None →
  handleUpdateStatus store docId target = (UpdateFailed, store).
Proof. intros H. unfold handleUpdateStatus, updateDoc. by rewrite H. Qed.

Lemma statusButtons_spec (current target : string) :
  target ∈ statusButtons current ↔
    (current = "Pending" ∧ target = "Accepted")%string
    ∨ (current = "Accepted" ∧ target = "Completed")%string
    ∨ (current ≠ "Canceled" ∧ current ≠ "Completed" ∧ target = "Canceled")%string.
Proof.
  unfold statusButtons.
  destruct (String.eqb_spec current "Pending") as [-> | Hp];
    [ simpl; status_cases | ].
  destruct (String.eqb_spec current "Accepted") as [-> | Ha];
    [ simpl; status_cases | ].
  destruct (String.eqb_spec current "Canceled") as [-> | Hc];
    [ simpl; status_cases | ].
  destruct (String.eqb_spec current "Completed") as [-> | Hd];
    simpl; status_cases.
Qed.

Lemma statusButtons_edges (current target : string) :
  validStatus current →
  target ∈ statusButtons current ↔ workflowEdge current target.
Proof.
  intros Hv. unfold workflowEdge, validStatus in *.
  rewrite !elem_of_cons, elem_of_nil in Hv.
  destruct Hv as [-> | [-> | [-> | [-> | []]]]];
    unfold statusButtons; simpl; status_cases.
Qed.

Lemma statusButtons_valid (current target : string) :
  target ∈ statusButtons current →
  target ∈ ["Accepted"; "Completed"; "Canceled"]%string.
Proof. rewrite statusButtons_spec. status_cases. Qed.

Lemma statusButtons_no_self (current : string) : current ∉ statusButtons current.
Proof. rewrite statusButtons_spec. intros [[-> [=]] | [[-> [=]] | (H & _ & ->)]]; done. Qed.

Lemma adminButtons_spec (user : option User) (bookings : list Booking)
    (loading : bool) (docId target : string) :
  (docId, target) ∈ adminButtons (AdminDashboardView user bookings loading) ↔
    isAdmin user = true ∧ loading = false
    ∧ ∃ b, b ∈ bookings ∧ id b = docId ∧ target ∈ statusButtons (status (data b)).
Proof.
  unfold AdminDashboardView.
  destruct (isAdmin user), loading; simpl;
    try (rewrite elem_of_nil; intuition discriminate).
  rewrite list_elem_of_bind. split.
  - intros (row & Hbtn & Hrow).
    apply list_elem_of_fmap in Hrow as (b & -> & Hb).
    simpl in Hbtn. apply list_elem_of_fmap in Hbtn as (t & [= -> ->] & Ht).
    eauto 10.
  - intros (_ & _ & b & Hb & <- & Ht).
    exists (adminRow b). split.
    + simpl. apply list_elem_of_fmap. eauto.
    + apply list_elem_of_fmap. eauto.
Qed.

Lemma adminTransition_cases (user : option User) (bookings : list Booking)
    (loading : bool) (store : Store) (docId target : string) :
  let r := adminTransition user bookings loading store docId target in
  (isAdmin user = false ∧ r = (Denied, store))
  ∨ (isAdmin user = true
     ∧ ((docId, target) ∉ adminButtons (AdminDashboardView user bookings loading))
     ∧ r = (NoSuchButton, store))
  ∨ (isAdmin user = true
     ∧ (docId, target) ∈ adminButtons (AdminDashboardView user bookings loading)
     ∧ r = handleUpdateStatus store docId target).
Proof.
  intros r. subst r. unfold adminTransition.
  destruct (isAdmin user) eqn:Ha.
  - right.
    assert (Hv : AdminDashboardView user bookings loading ≠ AccessDenied).
    { unfold AdminDashboardView. rewrite Ha. simpl. by destruct loading. }
    destruct (AdminDashboardView user bookings loading) eqn:Hview; [ done | | ];
      case_decide; auto.
  - left. unfold AdminDashboardView. rewrite Ha. simpl. auto.
Qed.

(** What one step may do to the collection. *)
Lemma step_inv (shows : Store → list Booking → Prop) (store store' : Store) :
  step shows store store' →
  store' = store
  ∨ (∃ newId d, store !! newId = None ∧ status d = "Pending"%string
                ∧ store' = <[newId := d]> store)
  ∨ (∃ bookings b d target,
        shows store bookings ∧ b ∈ bookings
        ∧ target ∈ statusButtons (status (data b))
        ∧ store !! id b = Some d
        ∧ store' = <[id b := withStatus target d]> store).
Proof.
  destruct 1 as [user h newId now store Hfresh
                | user bookings loading docId target store Hshows].
  - unfold handleBooking.
    destruct user as [u |]; [ | by left ].
    destruct (isAnonymous u); [ by left | ].
    destruct (h_fareEstimate h) as [f |]; [ | by left ].
    right. left. simpl. unfold addDoc.
    exists newId, (newBooking u h f now). auto.
  - destruct (adminTransition_cases user bookings loading store docId target)
      as [[_ ->] | [(_ & _ & ->) | (_ & Hbtn & ->)]]; [ by left | by left | ].
    apply adminButtons_spec in Hbtn as (_ & _ & b & Hb & <- & Ht).
    destruct (store !! id b) as [d |] eqn:Hd.
    + rewrite (handleUpdateStatus_found _ _ _ _ Hd). right. right. eauto 10.
    + rewrite (handleUpdateStatus_missing _ _ _ Hd). by left.
Qed.

Lemma statusButtons_terminal (current : string) :
  terminalStatus current → statusButtons current = [].
Proof.
  unfold terminalStatus. rewrite !elem_of_cons, elem_of_nil.
  intros [-> | [-> | []]]; reflexivity.
Qed.

Lemma isAdmin_email (user : option User) :
  isAdmin user = true ↔ user ≫= email = Some "admin@cabapp.com"%string.
Proof.
  destruct user as [[u [e |] a] |]; simpl; try (split; discriminate).
  destruct (String.eqb_spec e "admin@cabapp.com") as [-> | Hne];
    split; intros H; try done; congruence.
Qed.

(** The rows the snapshot listener derives from the collection are up
    to date with it. *)
Lemma snapshot_upToDate (store : Store) :
  upToDate store (onBookingsSnapshot (map_to_list store)).
Proof.
  intros b Hb. rewrite onBookingsSnapshot_Permutation in Hb.
  apply list_elem_of_fmap in Hb as ([i d] & -> & Hin).
  by apply elem_of_map_to_list in Hin.
Qed.

(** A page that is up to date offers a button only along an edge of the
    status the collection holds. *)
Lemma upToDate_button (store : Store) (user : option User) (bookings : list Booking)
    (loading : bool) (docId target : string) (d : BookingDoc) :
  upToDate store bookings →
  store !! docId = Some d →
  (docId, target) ∈ adminButtons (AdminDashboardView user bookings loading) →
  target ∈ statusButtons (status d).
Proof.
  intros Hup Hd (_ & _ & b & Hb & <- & Ht)%adminButtons_spec.
  apply Hup in Hb. rewrite Hb in Hd. by injection Hd as <-.
Qed.

Lemma step_statusesValid (shows : Store → list Booking → Prop) (store store' : Store) :
  step shows store store' → statusesValid store → statusesValid store'.
Proof.
  intros Hstep Hvalid.
  destruct (step_inv _ _ _ Hstep)
    as [-> | [(newId & d & _ & Hd & ->) | (bs & b & d & t & _ & _ & Ht & _ & ->)]];
    [ exact Hvalid | | ]; intros i d' Hi.
  - destruct (decide (newId = i)) as [-> | Hne].
    + rewrite lookup_insert_eq in Hi. injection Hi as <-.
      rewrite Hd. unfold validStatus. status_cases.
    + rewrite lookup_insert_ne in Hi by done. eauto.
  - destruct (decide (id b = i)) as [<- | Hne].
    + rewrite lookup_insert_eq in Hi. injection Hi as <-. simpl.
      apply statusButtons_valid in Ht. unfold validStatus.
      revert Ht. status_cases.
    + rewrite lookup_insert_ne in Hi by done. eauto.
Qed.

(** Across one step a stored document keeps every field but [status]. *)
Lemma step_keeps_fields (shows : Store → list Booking → Prop) (store store' : Store)
    (i : string) (d : BookingDoc) :
  step shows store store' → store !! i = Some d →
  ∃ d', store' !! i = Some d' ∧ d' = withStatus (status d') d.
Proof.
  intros Hstep Hi.
  assert (Hsame : d = withStatus (status d) d) by (by destruct d).
  destruct (step_inv _ _ _ Hstep)
    as [-> | [(newId & d0 & Hfresh & _ & ->) | (bs & b & d0 & t & _ & _ & _ & Hb & ->)]].
  - eauto.
  - exists d. rewrite lookup_insert_ne by congruence. auto.
  - destruct (decide (id b = i)) as [<- | Hne].
    + rewrite lookup_insert_eq. rewrite Hb in Hi. injection Hi as ->. eauto.
    + rewrite lookup_insert_ne by done. eauto.
Qed.

Lemma steps_keep_fields (shows : Store → list Booking → Prop) (store store' : Store) :
  rtc (step shows) store store' →
  ∀ i d, store !! i = Some d →
  ∃ d', store' !! i = Some d' ∧ d' = withStatus (status d') d.
Proof.
  induction 1 as [store | store mid store' Hstep _ IH]; intros i d Hi.
  - exists d. split; [ exact Hi | by destruct d ].
  - destruct (step_keeps_fields _ _ _ _ _ Hstep Hi) as (d1 & H1 & E1).
    destruct (IH _ _ H1) as (d2 & H2 & E2).
    exists d2. split; [ exact H2 | ].
    rewrite E2 at 1. rewrite E1. reflexivity.
Qed.

Lemma steps_statusesValid (shows : Store → list Booking → Prop) (store store' : Store) :
  rtc (step shows) store store' → statusesValid store → statusesValid store'.
Proof. induction 1; eauto using step_statusesValid. Qed.

Lemma step_keeps_terminal (store store' : Store) (i : string) (d : BookingDoc) :
  step upToDate store store' →
  store !! i = Some d → terminalStatus (status d) → store' !! i = Some d.
Proof.
  intros Hstep Hi Hterm.
  destruct (step_inv _ _ _ Hstep)
    as [-> | [(newId & d0 & Hfresh & _ & ->) | (bs & b & d0 & t & Hup & Hin & Ht & Hb & ->)]].
  - exact Hi.
  - rewrite lookup_insert_ne by congruence. exact Hi.
  - destruct (decide (id b = i)) as [<- | Hne].
    + apply Hup in Hin. rewrite Hin in Hi. injection Hi as <-.
      rewrite (statusButtons_terminal _ Hterm) in Ht. by apply elem_of_nil in Ht.
    + by rewrite lookup_insert_ne.
Qed.

Lemma steps_keep_terminal (store store' : Store) :
  rtc (step upToDate) store store' →
  ∀ i d, store !! i = Some d → terminalStatus (status d) → store' !! i = Some d.
Proof. induction 1; eauto using step_keeps_terminal. Qed.

(** C1, as the specification states it, fails: the handler accepts a
    pair that is no edge of the table.  From Pending it writes
    Completed, and a request for the current status is written and
    reported as a success as well; such a request is within reach of
    the page: one rendered while the booking was Pending still offers
    Accept after the booking has been accepted. *)
Lemma invalid_transition_is_written :
  ¬ workflowEdge "Pending" "Completed"
  ∧ ¬ workflowEdge "Pending" "Pending"
  ∧ ¬ workflowEdge "Accepted" "Accepted"
  ∧ handleUpdateStatus (storeWith "Pending") "b1" "Completed"
    = (StatusUpdated, storeWith "Completed")
  ∧ handleUpdateStatus (storeWith "Pending") "b1" "Pending"
    = (StatusUpdated, storeWith "Pending")
  ∧ adminTransition (Some adminUser)
      (onBookingsSnapshot (map_to_list (storeWith "Pending"))) false
      (storeWith "Accepted") "b1" "Accepted"
    = (StatusUpdated, storeWith "Accepted").
Proof.
  unfold workflowEdge.
  split; [ status_cases | ].
  split; [ status_cases | ].
  split; [ status_cases | ].
  split; [ | split; [ | vm_compute; reflexivity ] ]; unfold storeWith;
    rewrite (handleUpdateStatus_found _ _ _ _ (lookup_singleton_eq _ _));
    by rewrite insert_singleton_eq.
Qed.

(** C1, amended.  The workflow table is enforced by the admin page, not
    by the handler.  When the page is up to date with the collection
    and the pair (status of the booking, target) is not an edge of the
    table, the page has no button for the request: nothing is written,
    the collection is as before, and the request ends as [Denied] or
    [NoSuchButton]; in particular no button names the status the
    booking already has.  The handler itself checks nothing: called on
    an existing booking it writes the target and reports success. *)
Theorem non_edge_has_no_button
    (user : option User) (bookings : list Booking) (loading : bool)
    (store : Store) (docId target : string) (d : BookingDoc) :
  upToDate store bookings →
  store !! docId = Some d →
  validStatus (status d) →
  ¬ workflowEdge (status d) target →
  ((docId, target) ∉ adminButtons (AdminDashboardView user bookings loading))
  ∧ (adminTransition user bookings loading store docId target).2 = store
  ∧ (adminTransition user bookings loading store docId target).1
      ∈ [Denied; NoSuchButton]
  ∧ (status d ∉ statusButtons (status d))
  ∧ handleUpdateStatus store docId target
    = (StatusUpdated, <[docId := withStatus target d]> store).
Proof.
  intros Hup Hd Hvalid Hedge.
  assert (Hno : (docId, target)
                  ∉ adminButtons (AdminDashboardView user bookings loading)).
  { intros Hbtn. apply Hedge, statusButtons_edges; [ exact Hvalid | ].
    eapply upToDate_button; eauto. }
  split; [ exact Hno | ].
  destruct (adminTransition_cases user bookings loading store docId target)
    as [[_ ->] | [(_ & _ & ->) | (_ & Hbtn & _)]]; [ | | done ]; simpl;
    (split; [ reflexivity | ]);
    (split; [ status_cases | ]);
    (split; [ apply statusButtons_no_self | by apply handleUpdateStatus_found ]).
Qed.

Lemma non_edge_has_no_button_witness :
  (adminTransition (Some adminUser)
     (onBookingsSnapshot (map_to_list (storeWith "Pending")))
     false (storeWith "Pending") "b1" "Completed").2
  = storeWith "Pending".
Proof.
  refine (proj1 (proj2
    (non_edge_has_no_button (Some adminUser)
       (onBookingsSnapshot (map_to_list (storeWith "Pending"))) false
       (storeWith "Pending") "b1" "Completed" (rideOf "U1" "Pending" 1000)
       _ _ _ _))).
  - apply snapshot_upToDate.
  - reflexivity.
  - unfold validStatus. simpl. status_cases.
  - unfold workflowEdge. simpl. status_cases.
Defined.

(** C2, as the specification states it, fails: a page rendered while
    the booking was Accepted still offers Cancel after the booking has
    been completed, and the request overwrites Completed; the handler
    also takes a Completed booking back to Accepted. *)
Lemma completed_status_is_overwritten :
  ("b1", "Canceled")%string
    ∈ adminButtons (AdminDashboardView (Some adminUser)
                      (onBookingsSnapshot (map_to_list (storeWith "Accepted"))) false)
  ∧ handleUpdateStatus (storeWith "Accepted") "b1" "Completed"
    = (StatusUpdated, storeWith "Completed")
  ∧ adminTransition (Some adminUser)
      (onBookingsSnapshot (map_to_list (storeWith "Accepted"))) false
      (storeWith "Completed") "b1" "Canceled"
    = (StatusUpdated, storeWith "Canceled")
  ∧ handleUpdateStatus (storeWith "Completed") "b1" "Accepted"
    = (StatusUpdated, storeWith "Accepted").
Proof.
  assert (Hrows : onBookingsSnapshot (map_to_list (storeWith "Accepted"))
                  = [mkBooking "b1" (rideOf "U1" "Accepted" 1000)]).
  { unfold storeWith. by rewrite map_to_list_singleton. }
  assert (Hwrite : ∀ s t, handleUpdateStatus (storeWith s) "b1" t
                          = (StatusUpdated, storeWith t)).
  { intros s t. unfold storeWith.
    rewrite (handleUpdateStatus_found _ _ _ _ (lookup_singleton_eq _ _)).
    by rewrite insert_singleton_eq. }
  rewrite Hrows.
  split; [ apply adminButtons_spec; split; [ done | split; [ done | ] ];
           eexists; split; [ apply list_elem_of_singleton; reflexivity | ];
           split; [ reflexivity | unfold statusButtons; simpl; status_cases ] | ].
  split; [ apply Hwrite | ].
  split; [ | apply Hwrite ].
  vm_compute. reflexivity.
Qed.

(** C2, amended.  Completed and Canceled are terminal for every request
    made from an admin page that shows the collection as it is: such a
    page has no button on a row shown as Completed or Canceled, so
    through any sequence of bookings and of requests from up-to-date
    pages a Completed or Canceled booking stays exactly as it is. *)
Theorem terminal_status_kept_by_current_pages
    (store store' : Store) (docId : string) (d : BookingDoc) :
  rtc (step upToDate) store store' →
  store !! docId = Some d →
  terminalStatus (status d) →
  statusButtons (status d) = []
  ∧ store' !! docId = Some d
  ∧ status <$> store' !! docId = Some (status d).
Proof.
  intros Hsteps Hd Hterm.
  split; [ by apply statusButtons_terminal | ].
  assert (H : store' !! docId = Some d) by (eapply steps_keep_terminal; eauto).
  split; [ exact H | by rewrite H ].
Qed.

Lemma terminal_status_kept_by_current_pages_witness :
  status <$> (adminTransition (Some adminUser)
                (onBookingsSnapshot (map_to_list (storeWith "Completed"))) false
                (storeWith "Completed") "b1" "Canceled").2 !! "b1"%string
  = Some "Completed"%string.
Proof.
  refine (proj2 (proj2
    (terminal_status_kept_by_current_pages (storeWith "Completed") _ "b1"
       (rideOf "U1" "Completed" 1000) _ _ _))).
  - apply rtc_once.
    apply (step_transition upToDate (Some adminUser)
             (onBookingsSnapshot (map_to_list (storeWith "Completed")))
             false "b1" "Canceled").
    apply snapshot_upToDate.
  - reflexivity.
  - unfold terminalStatus. simpl. status_cases.
Defined.

(** C3.  For every identity whose email is not the admin email (no
    identity at all included), every set of rows, every booking id and
    every target status, the header does not link to the admin page,
    the admin page renders "Access Denied" and has no button, and the
    request ends as [Denied] with the collection, and so the status of
    every booking, unchanged. *)
Theorem non_admin_transition_denied
    (user : option User) (bookings : list Booking) (loading : bool)
    (store : Store) (docId target : string) :
  user ≫= email ≠ Some "admin@cabapp.com"%string →
  ("admin"%string ∉ navPages user)
  ∧ AdminDashboardView user bookings loading = AccessDenied
  ∧ adminButtons (AdminDashboardView user bookings loading) = []
  ∧ adminTransition user bookings loading store docId target = (Denied, store)
  ∧ status <$> (adminTransition user bookings loading store docId target).2 !! docId
    = status <$> store !! docId.
Proof.
  intros Hemail.
  assert (Ha : isAdmin user = false).
  { destruct (isAdmin user) eqn:E; [ | done ].
    by apply isAdmin_email in E. }
  assert (Hview : AdminDashboardView user bookings loading = AccessDenied).
  { unfold AdminDashboardView. by rewrite Ha. }
  split.
  { unfold navPages. rewrite Ha.
    destruct (default false (negb ∘ isAnonymous <$> user)); simpl; status_cases. }
  unfold adminTransition. rewrite Hview. done.
Qed.

Lemma non_admin_transition_denied_witness :
  adminTransition (Some riderUser) [mkBooking "b1" (rideOf "U1" "Pending" 1000)]
    false (storeWith "Pending") "b1" "Completed"
  = (Denied, storeWith "Pending").
Proof.
  refine (proj1 (proj2 (proj2 (proj2
    (non_admin_transition_denied (Some riderUser)
       [mkBooking "b1" (rideOf "U1" "Pending" 1000)] false
       (storeWith "Pending") "b1" "Completed" _))))).
  simpl. discriminate.
Defined.

(** C7.  A transition that succeeds replaces the targeted document by
    the same document with the new status: its [userId], [userEmail],
    [pickup], [dropoff], [vehicleType], [distance], [fare], [dateTime],
    [createdAt] and [paymentStatus] are as before, and every other
    document of the collection is untouched.  Whatever the application
    writes afterwards (bookings, transitions from any page), a stored
    document keeps all its fields but [status], its [userId] among
    them. *)
Theorem transition_writes_status_only
    (store store' : Store) (docId target : string) :
  handleUpdateStatus store docId target = (StatusUpdated, store') →
  (∃ d d',
      store !! docId = Some d ∧ store' !! docId = Some d'
      ∧ d' = withStatus target d
      ∧ status d' = target
      ∧ userId d' = userId d ∧ userEmail d' = userEmail d
      ∧ pickup d' = pickup d ∧ dropoff d' = dropoff d
      ∧ vehicleType d' = vehicleType d ∧ distance d' = distance d
      ∧ fare d' = fare d ∧ dateTime d' = dateTime d
      ∧ createdAt d' = createdAt d ∧ paymentStatus d' = paymentStatus d)
  ∧ (∀ other, other ≠ docId → store' !! other = store !! other)
  ∧ (∀ later i d,
       rtc (step anySnapshot) store later → store !! i = Some d →
       ∃ d', later !! i = Some d'
             ∧ d' = withStatus (status d') d ∧ userId d' = userId d).
Proof.
  intros Hwrite.
  destruct (store !! docId) as [d |] eqn:Hd.
  - rewrite (handleUpdateStatus_found _ _ _ _ Hd) in Hwrite.
    injection Hwrite as <-.
    split; [ | split ].
    + exists d, (withStatus target d).
      rewrite lookup_insert_eq. tauto.
    + intros other Hne. by rewrite lookup_insert_ne.
    + intros later i d0 Hsteps Hi.
      destruct (steps_keep_fields _ _ _ Hsteps _ _ Hi) as (d' & Hd' & E).
      exists d'. split; [ exact Hd' | ]. split; [ exact E | ].
      rewrite E. reflexivity.
  - rewrite (handleUpdateStatus_missing _ _ _ Hd) in Hwrite. discriminate.
Qed.

Lemma transition_writes_status_only_witness :
  storeWith "Accepted" !! "b2"%string = storeWith "Pending" !! "b2"%string.
Proof.
  refine (proj1 (proj2
    (transition_writes_status_only (storeWith "Pending") (storeWith "Accepted")
       "b1" "Accepted" _)) "b2"%string _).
  - vm_compute. reflexivity.
  - discriminate.
Defined.

(** C8.  When nobody is signed in, or the identity is anonymous,
    submitting the booking form writes nothing to the collection; it
    raises the alert asking to log in and sets the page to the login
    page, whatever the form holds. *)
Theorem unauthenticated_booking_redirected
    (user : option User) (h : HomeState) (store : Store) (newId : string) (now : Z) :
  user = None ∨ isAnonymous <$> user = Some true →
  let after := handleBooking user h store newId now in
  e_store after = store
  ∧ e_page after = Some "login"%string
  ∧ e_alerts after = ["Please log in or sign up to complete a booking."%string]
  ∧ e_home after = h
  ∧ e_timer after = None.
Proof.
  intros Hwho. unfold handleBooking.
  destruct user as [u |]; [ | done ].
  destruct Hwho as [[=] | Hanon].
  simpl in Hanon. injection Hanon as ->. done.
Qed.

Lemma unauthenticated_booking_redirected_witness :
  e_store (handleBooking (Some guestUser) sampleForm (storeWith "Pending") "b2" 2000)
  = storeWith "Pending"
  ∧ e_page (handleBooking None sampleForm (storeWith "Pending") "b2" 2000)
    = Some "login"%string.
Proof.
  split.
  - refine (proj1
      (unauthenticated_booking_redirected (Some guestUser) sampleForm
         (storeWith "Pending") "b2" 2000 _)).
    right. reflexivity.
  - refine (proj1 (proj2
      (unauthenticated_booking_redirected None sampleForm
         (storeWith "Pending") "b2" 2000 _))).
    left. reflexivity.
Defined.

(** C9.  In every collection the application can reach from the empty
    one, by bookings under fresh identifiers and by requests made on
    admin pages showing any rows, the status of every booking is one of
    Pending, Accepted, Completed and Canceled; a booking enters the
    collection with status Pending, and a button of the admin page
    writes Accepted, Completed or Canceled only. *)
Theorem status_always_in_workflow_set (store : Store) :
  rtc (step anySnapshot) ∅ store →
  statusesValid store
  ∧ (∀ i d, store !! i = Some d →
            status d ∈ ["Pending"; "Accepted"; "Completed"; "Canceled"]%string)
  ∧ (∀ u h fareEstimate now,
       status (newBooking u h fareEstimate now) = "Pending"%string)
  ∧ (∀ user bookings loading docId target,
       (docId, target) ∈ adminButtons (AdminDashboardView user bookings loading) →
       target ∈ ["Accepted"; "Completed"; "Canceled"]%string).
Proof.
  intros Hreach.
  assert (Hvalid : statusesValid store).
  { eapply steps_statusesValid; [ exact Hreach | ].
    intros i d Hi. by rewrite lookup_empty in Hi. }
  split; [ exact Hvalid | ].
  split; [ exact Hvalid | ].
  split; [ reflexivity | ].
  intros user bookings loading docId target
    (_ & _ & b & _ & _ & Ht)%adminButtons_spec.
  by eapply statusButtons_valid.
Qed.

Lemma status_always_in_workflow_set_witness :
  statusesValid
    (adminTransition (Some adminUser) [mkBooking "b1" (rideOf "U1" "Pending" 1000)]
       false
       (e_store (handleBooking (Some riderUser) sampleForm ∅ "b1" 1000))
       "b1" "Accepted").2.
Proof.
  refine (proj1 (status_always_in_workflow_set _ _)).
  eapply rtc_l; [ | apply rtc_once ].
  - apply (step_booking anySnapshot (Some riderUser) sampleForm "b1" 1000 ∅).
    reflexivity.
  - apply (step_transition anySnapshot (Some adminUser)
             [mkBooking "b1" (rideOf "U1" "Pending" 1000)] false "b1" "Accepted").
    exact I.
Defined.

(** ** Worked examples *)

Example mockDistance_downtown :
  mockDistance (JS.charCodes "Downtown Office") (JS.charCodes "Airport Terminal 3")
  = JS.mkFixed 170 1.
Proof. vm_compute. reflexivity. Qed.

Example handleEstimate_downtown :
  (handleEstimate
     (mkHomeState "Downtown Office" "Airport Terminal 3" "Cab" "2025-01-01" "09:30"
        None None false None)).2
  = Some (JS.mkFixed 3050 2).
Proof. vm_compute. reflexivity. Qed.

Example handleEstimate_missing_dropoff :
  handleEstimate
    (mkHomeState "Downtown Office" "" "Cab" "2025-01-01" "09:30"
       (Some (JS.mkFixed 3050 2)) None false None)
  = (mkHomeState "Downtown Office" "" "Cab" "2025-01-01" "09:30"
       None None false
       (Some "Please enter both pickup and drop-off locations."%string), None).
Proof. vm_compute. reflexivity. Qed.

Example handleBooking_signed_in :
  e_store (handleBooking (Some riderUser) sampleForm ∅ "b1" 1000)
  = storeWith "Pending"
  ∧ e_page (handleBooking (Some riderUser) sampleForm ∅ "b1" 1000)
    = Some "dashboard"%string.
Proof. vm_compute. split; reflexivity. Qed.

Example handleBooking_without_estimate :
  e_store (handleBooking (Some riderUser)
             (mkHomeState "Downtown Office" "Airport Terminal 3" "Cab"
                "2025-01-01" "09:30" None None false None)
             ∅ "b1" 1000)
  = ∅.
Proof. vm_compute. reflexivity. Qed.

Example handleUpdateStatus_unknown_id :
  handleUpdateStatus (storeWith "Pending") "b9" "Accepted"
  = (UpdateFailed, storeWith "Pending").
Proof. vm_compute. reflexivity. Qed.

Example rider_sees_own_bookings_newest_first :
  userBookingsOf "U1"
    (onBookingsSnapshot [("b1"%string, rideOf "U1" "Pending" 1000);
                         ("b2"%string, rideOf "U2" "Accepted" 2000);
                         ("b3"%string, rideOf "U1" "Canceled" 3000)])
  = [mkBooking "b3" (rideOf "U1" "Canceled" 3000);
     mkBooking "b1" (rideOf "U1" "Pending" 1000)].
Proof. vm_compute. reflexivity. Qed.

Example rider_without_bookings :
  UserDashboardView (Some riderUser)
    (onBookingsSnapshot [("b2"%string, rideOf "U2" "Accepted" 2000)]) false
  = UserDashboard false [].
Proof. vm_compute. reflexivity. Qed.

Example anonymous_rider_dashboard :
  UserDashboardView (Some guestUser)
    (onBookingsSnapshot [("b2"%string, rideOf "G1" "Accepted" 2000)]) false
  = NotAuthenticatedMessage.
Proof. reflexivity. Qed.

Example admin_buttons_by_status :
  statusButtons "Pending" = ["Accepted"; "Canceled"]%string
  ∧ statusButtons "Accepted" = ["Completed"; "Canceled"]%string
  ∧ statusButtons "Completed" = []
  ∧ statusButtons "Canceled" = [].
Proof. vm_compute. repeat split. Qed.

Example useBookings_without_user :
  useBookings None (Some [("b1"%string, rideOf "U1" "Pending" 1000)]) = []
  ∧ useBookings (Some "U1"%string) None = []
  ∧ useBookings (Some "U1"%string) (Some [("b1"%string, rideOf "U1" "Pending" 1000)])
    = [mkBooking "b1" (rideOf "U1" "Pending" 1000)].
Proof. vm_compute. repeat split. Qed.

(** * Further properties of the source *)

(** ** Distance and hash *)

Lemma charCodes_range (s : string) :
  Forall (λ c, 0 ≤ c < 65536) (JS.charCodes s).
Proof.
  unfold JS.charCodes. apply Forall_fmap, Forall_forall. intros c _. simpl.
  pose proof (Ascii.nat_ascii_bounded c). lia.
Qed.

(** X1.  The mock distance does not depend on the direction of the
    ride: exchanging pickup and drop-off gives the same distance, and
    so the same fare for every vehicle type. *)
Theorem mockDistance_symmetric (pickup dropoff : list Z) (vehicleType : string) :
  mockDistance pickup dropoff = mockDistance dropoff pickup
  ∧ fareEstimateOf vehicleType (mockDistance pickup dropoff)
    = fareEstimateOf vehicleType (mockDistance dropoff pickup).
Proof.
  assert (H : mockDist pickup dropoff = mockDist dropoff pickup).
  { unfold mockDist. f_equal. f_equal. lia. }
  unfold mockDistance. rewrite H. done.
Qed.

(** X2.  While [hash] runs over a text of less than 2^21 code units,
    its value stays strictly within -2^53 .. 2^53, the range in which
    the number arithmetic of the source is exact on integers. *)
Theorem hash_within_exact_range (s : list Z) :
  Forall (λ c, 0 ≤ c < 65536) s →
  Z.of_nat (length s) < 2 ^ 21 →
  ∀ k, - 2 ^ 53 < hash (take k s) < 2 ^ 53.
Proof.
  intros Hs Hlen k.
  assert (Hk : Forall (λ c, 0 ≤ c < 65536) (take k s)) by by apply Forall_take.
  pose proof (hash_magnitude _ Hk) as Hb.
  assert (Z.of_nat (length (take k s)) ≤ Z.of_nat (length s)).
  { rewrite length_take. lia. }
  assert (Z.of_nat (length (take k s)) * (2 ^ 31 + 65535) < 2 ^ 53) by nia.
  lia.
Qed.

Lemma hash_within_exact_range_witness :
  - 2 ^ 53 < hash (take 8 (JS.charCodes "Downtown Office")) < 2 ^ 53.
Proof.
  refine (hash_within_exact_range (JS.charCodes "Downtown Office") _ _ 8%nat).
  - apply charCodes_range.
  - vm_compute. reflexivity.
Defined.

(** ** The booking form *)

Lemma vehicleOptions_priced (type : string) :
  type ∈ vehicleOptions ↔ is_Some (VEHICLE_RATES type).
Proof.
  unfold vehicleOptions. split.
  - rewrite !elem_of_cons, elem_of_nil.
    intros [-> | [-> | [-> | [-> | []]]]]; by eexists.
  - intros [r Hr]. apply VEHICLE_RATES_inv in Hr.
    rewrite !elem_of_cons, elem_of_nil in Hr.
    rewrite !elem_of_cons.
    destruct Hr as [[= -> _] | [[= -> _] | [[= -> _] | [[= -> _] | []]]]]; auto.
Qed.

Lemma estimateDisabled_false (h : HomeState) :
  estimateDisabled h = false →
  h_isEstimating h = false ∧ truthy (h_pickup h) = true ∧ truthy (h_dropoff h) = true.
Proof.
  unfold estimateDisabled.
  destruct (h_isEstimating h), (truthy (h_pickup h)), (truthy (h_dropoff h)); done.
Qed.

Lemma bookDisabled_false (h : HomeState) :
  bookDisabled h = false →
  h_isEstimating h = false ∧ is_Some (h_fareEstimate h).
Proof.
  unfold bookDisabled.
  destruct (h_fareEstimate h), (h_isEstimating h); done.
Qed.

Lemma handleEstimate_enabled (h : HomeState) :
  estimateDisabled h = false →
  handleEstimate h
  = (setEstimate h (h_fareEstimate h)
       (Some (mockDistance (JS.charCodes (h_pickup h)) (JS.charCodes (h_dropoff h))))
       true None,
     fareEstimateOf (h_vehicleType h)
       (mockDistance (JS.charCodes (h_pickup h)) (JS.charCodes (h_dropoff h)))).
Proof.
  intros (_ & Hp & Hd)%estimateDisabled_false.
  unfold handleEstimate. by rewrite Hp, Hd.
Qed.



(** X4.  When the pickup or the drop-off text is empty, [handleEstimate]
    computes nothing: it sets the message asking for both locations,
    clears an estimate that was shown, starts no timer, and leaves the
    texts, the vehicle type, the distance and the estimating flag as
    they were. *)
Theorem estimate_needs_both_locations (h : HomeState) :
  h_pickup h = ""%string ∨ h_dropoff h = ""%string →
  (handleEstimate h).2 = None
  ∧ h_error (handleEstimate h).1
    = Some "Please enter both pickup and drop-off locations."%string
  ∧ h_fareEstimate (handleEstimate h).1 = None
  ∧ h_pickup (handleEstimate h).1 = h_pickup h
  ∧ h_dropoff (handleEstimate h).1 = h_dropoff h
  ∧ h_vehicleType (handleEstimate h).1 = h_vehicleType h
  ∧ h_distance (handleEstimate h).1 = h_distance h
  ∧ h_isEstimating (handleEstimate h).1 = h_isEstimating h
  ∧ estimateDisabled h = true.
Proof.
  intros Hempty.
  assert (Hc : negb (truthy (h_pickup h)) || negb (truthy (h_dropoff h)) = true).
  { destruct Hempty as [-> | ->]; [ done | ]. by rewrite orb_true_r. }
  unfold handleEstimate, estimateDisabled. rewrite Hc. simpl.
  repeat split.
  rewrite <- orb_assoc, Hc. apply orb_true_r.
Qed.

Lemma estimate_needs_both_locations_witness :
  (handleEstimate (setDropoff "" sampleForm)).2 = None.
Proof.
  refine (proj1 (estimate_needs_both_locations _ _)).
  right. reflexivity.
Defined.

Lemma handleBooking_without_estimate_store (user : option User) (h : HomeState)
    (store : Store) (newId : string) (now : Z) :
  h_fareEstimate h = None →
  e_store (handleBooking user h store newId now) = store.
Proof.
  intros Hnone. unfold handleBooking. rewrite Hnone.
  destruct user as [u |]; [ | done ]. by destruct (isAnonymous u).
Qed.

Lemma formStep_formInv (f f' : Form) : formStep f f' → formInv f → formInv f'.
Proof.
  unfold formInv.
  destruct 1 as [v h ts | v h ts | v h ts | v h ts | ty h ts Hty | h ts Hen
                | fare h before after | user store newId now h ts Hen];
    simpl; intros (Hvt & Hfd & Htimers); try done.
  - (* Estimate Fare *)
    pose proof Hen as (Hie & _ & _)%estimateDisabled_false.
    rewrite Hie in Htimers. subst ts.
    rewrite (handleEstimate_enabled h Hen). simpl.
    apply vehicleOptions_priced in Hvt as Hpriced. destruct Hpriced as [r Hr].
    split; [ exact Hvt | ]. split; [ by eexists | ]. split; [ by eexists | ].
    unfold mockDistance. rewrite (fareEstimateOf_whole _ _ _ Hr). by eexists.
  - (* the timer *)
    destruct (h_isEstimating h).
    + destruct Htimers as (Hd & f0 & Hts).
      split; [ done | ]. split; [ done | ].
      destruct before as [| b before]; simpl in Hts.
      * by injection Hts as _ ->.
      * injection Hts as _ Hts. by destruct before.
    + by destruct before.
  - (* Book Now *)
    pose proof Hen as (Hie & f0 & Hf0)%bookDisabled_false.
    rewrite Hie in Htimers. subst ts.
    unfold handleBooking. rewrite Hf0.
    destruct user as [u |]; [ destruct (isAnonymous u) | ]; simpl;
      rewrite ?Hie; split; try done; split; done.
Qed.

(** X5.  Through every sequence of typing, vehicle choices, clicks on
    enabled buttons and timers firing, starting from the form as first
    rendered: the vehicle type is one of the four options and so has a
    rate; at most one estimate timer is pending, and exactly one while
    the form is estimating; and whenever Book Now is enabled the form
    holds both an estimate and a distance, with no timer pending. *)
Theorem form_keeps_estimate_consistent (date time : string) (f : Form) :
  rtc formStep (mkForm (initialHome date time) []) f →
  h_vehicleType (form_state f) ∈ vehicleOptions
  ∧ is_Some (VEHICLE_RATES (h_vehicleType (form_state f)))
  ∧ (length (form_timers f) ≤ 1)%nat
  ∧ (h_isEstimating (form_state f) = true ↔ length (form_timers f) = 1%nat)
  ∧ (bookDisabled (form_state f) = false →
     is_Some (h_fareEstimate (form_state f))
     ∧ is_Some (h_distance (form_state f))
     ∧ form_timers f = []).
Proof.
  intros Hreach.
  assert (Hinv : formInv f).
  { assert (H0 : formInv (mkForm (initialHome date time) [])).
    { unfold formInv, vehicleOptions. simpl. split; [ left | ].
      split; [ by intros [? [=]] | done ]. }
    revert H0. induction Hreach; eauto using formStep_formInv. }
  destruct Hinv as (Hvt & Hfd & Htimers).
  split; [ exact Hvt | ]. split; [ by apply vehicleOptions_priced | ].
  destruct (h_isEstimating (form_state f)) eqn:Hie.
  - destruct Htimers as (Hd & fare & ->). simpl.
    split; [ lia | ]. split; [ done | ].
    intros (Hcontra & _)%bookDisabled_false. congruence.
  - rewrite Htimers. simpl. split; [ lia | ]. split; [ done | ].
    intros (_ & Hf)%bookDisabled_false. auto.
Qed.

Lemma form_keeps_estimate_consistent_witness :
  h_vehicleType
    (selectVehicle "Taxi" (setPickup "Downtown Office"
       (initialHome "2025-01-01" "09:30")))
  ∈ vehicleOptions.
Proof.
  refine (proj1 (form_keeps_estimate_consistent "2025-01-01" "09:30"
    (mkForm (selectVehicle "Taxi" (setPickup "Downtown Office"
               (initialHome "2025-01-01" "09:30"))) []) _)).
  eapply rtc_l; [ apply form_pickup | ].
  apply rtc_once, form_vehicle.
  unfold vehicleOptions. rewrite !elem_of_cons. auto.
Defined.





(** X8.  Picking a vehicle discards the estimate on screen: the form
    takes the new vehicle type, Book Now becomes disabled, and
    submitting the form before a new estimate has arrived writes
    nothing, whoever is signed in. *)
Theorem vehicle_change_discards_estimate (type : string) (h : HomeState) :
  h_vehicleType (selectVehicle type h) = type
  ∧ h_fareEstimate (selectVehicle type h) = None
  ∧ bookDisabled (selectVehicle type h) = true
  ∧ ∀ user store newId now,
      e_store (handleBooking user (selectVehicle type h) store newId now) = store.
Proof.
  repeat split. intros. by apply handleBooking_without_estimate_store.
Qed.



(** ** Price list *)

(** X10.  The price list of the vehicle details page agrees with the
    pricing table the estimate uses: its cards are the four vehicle
    options in order, each card shows the base fare and the rate per
    kilometre of [VEHICLE_RATES] for its type, converted from cents to
    dollars, and a vehicle type has a rate exactly when it is one of
    the options. *)
Theorem price_list_matches_rates :
  c_type <$> vehicles = vehicleOptions
  ∧ Forall (λ c, ∃ r, VEHICLE_RATES (c_type c) = Some r
                      ∧ c_base c = dollars (base r)
                      ∧ c_rate c = (dollars (rate r) +:+ "/km")%string) vehicles
  ∧ ∀ type, is_Some (VEHICLE_RATES type) ↔ type ∈ vehicleOptions.
Proof.
  split; [ reflexivity | ]. split.
  - unfold vehicles.
    repeat (apply Forall_cons; split;
            [ eexists; split; [ reflexivity | ]; split; vm_compute; reflexivity | ]).
    apply Forall_nil_2.
  - intros type. symmetry. apply vehicleOptions_priced.
Qed.

(** ** Pages and what they show *)

Lemma in_userBookingsOf (viewer : string) (bookings : list Booking) (b : Booking) :
  b ∈ userBookingsOf viewer bookings ↔ userId (data b) = viewer ∧ b ∈ bookings.
Proof. unfold userBookingsOf. by rewrite list_elem_of_filter. Qed.

Lemma in_useBookings (userId : option string)
    (delivered : option (list (string * BookingDoc))) (b : Booking) :
  b ∈ useBookings userId delivered →
  ∃ docs, delivered = Some docs ∧ b ∈ toBooking <$> docs.
Proof.
  unfold useBookings.
  destruct userId as [u |], delivered as [docs |]; try by intros ?%elem_of_nil.
  destruct (truthy u); [ | by intros ?%elem_of_nil ].
  rewrite onBookingsSnapshot_Permutation. eauto.
Qed.

(** X11.  Whatever page name is current and whoever is signed in, a
    booking appears on screen only if it is in the last snapshot and
    either the viewer is the admin or the viewer is a registered user
    and the booking is the viewer's own.  Nothing is shown while the
    application loads, to an anonymous identity, or to nobody. *)
Theorem only_own_bookings_on_screen
    (isLoading : bool) (currentPage : string) (user : option User)
    (delivered : option (list (string * BookingDoc)))
    (isBookingsLoading : bool) (b : Booking) :
  b ∈ displayedBookings
        (renderPage isLoading currentPage user
           (useBookings (uid <$> user) delivered) isBookingsLoading) →
  isLoading = false
  ∧ (∃ docs, delivered = Some docs ∧ b ∈ toBooking <$> docs)
  ∧ (isAdmin user = true
     ∨ ∃ u, user = Some u ∧ isAnonymous u = false ∧ userId (data b) = uid u).
Proof.
  set (bookings := useBookings (uid <$> user) delivered).
  assert (Hsnap : ∀ x, x ∈ bookings →
                       ∃ docs, delivered = Some docs ∧ x ∈ toBooking <$> docs).
  { intros x. apply in_useBookings. }
  clearbody bookings.
  unfold renderPage.
  destruct isLoading; [ by intros ?%elem_of_nil | ].
  repeat (match goal with
          | |- context [String.eqb currentPage ?s] =>
              destruct (String.eqb currentPage s)
          end; try by intros ?%elem_of_nil); simpl.
  - unfold UserDashboardView.
    destruct user as [u |]; [ | by intros ?%elem_of_nil ].
    destruct (isAnonymous u) eqn:Hanon; [ by intros ?%elem_of_nil | ]. simpl.
    destruct isBookingsLoading; [ by intros ?%elem_of_nil | ].
    intros (Hown & Hin)%in_userBookingsOf.
    split; [ done | ]. split; [ by apply Hsnap | ].
    right. eauto.
  - unfold AdminDashboardView.
    destruct (isAdmin user); [ | by intros ?%elem_of_nil ]. simpl.
    destruct isBookingsLoading; [ by intros ?%elem_of_nil | ]. simpl.
    rewrite <- list_fmap_compose, list_fmap_id. intros Hin.
    split; [ done | ]. split; [ by apply Hsnap | by left ].
Qed.

Lemma only_own_bookings_on_screen_witness :
  isAdmin (Some riderUser) = true
  ∨ ∃ u, Some riderUser = Some u ∧ isAnonymous u = false
         ∧ userId (data (mkBooking "b1" (rideOf "U1" "Pending" 1000))) = uid u.
Proof.
  refine (proj2 (proj2
    (only_own_bookings_on_screen false "dashboard" (Some riderUser)
       (Some [("b1"%string, rideOf "U1" "Pending" 1000);
              ("b2"%string, rideOf "U2" "Accepted" 2000)])
       false (mkBooking "b1" (rideOf "U1" "Pending" 1000)) _))).
  vm_compute. left.
Defined.

(** X12.  The header links and the page gates agree.  The header links
    to the dashboard exactly when the dashboard page lets the viewer
    in, and to the admin page exactly when that page does; the home and
    contact links are always there; so following a header link never
    ends on a refusal, and a page reached without its link refuses. *)
Theorem header_links_match_page_gates
    (user : option User) (bookings : list Booking) (isBookingsLoading : bool) :
  ("home"%string ∈ navPages user ∧ "contact"%string ∈ navPages user)
  ∧ ("dashboard"%string ∈ navPages user
     ↔ UserDashboardView user bookings isBookingsLoading ≠ NotAuthenticatedMessage)
  ∧ ("admin"%string ∈ navPages user
     ↔ AdminDashboardView user bookings isBookingsLoading ≠ AccessDenied)
  ∧ (accountButton user = "Sign Out"%string ↔ "dashboard"%string ∈ navPages user)
  ∧ ∀ page, page ∈ navPages user →
      renderPage false page user bookings isBookingsLoading
        ∉ [HomePage; DashboardPage NotAuthenticatedMessage;
           AdminPanelPage AccessDenied]
      ∨ page = "home"%string.
Proof.
  assert (Hfixed : "home"%string ∈ navPages user ∧ "contact"%string ∈ navPages user).
  { unfold navPages.
    destruct (default false _), (isAdmin user); simpl; split; status_cases. }
  assert (Hdash : "dashboard"%string ∈ navPages user
                  ↔ UserDashboardView user bookings isBookingsLoading
                    ≠ NotAuthenticatedMessage).
  { unfold navPages, UserDashboardView.
    destruct (isAdmin user); destruct user as [u |]; simpl;
      [ destruct (isAnonymous u) | | destruct (isAnonymous u) | ]; simpl;
      status_cases. }
  assert (Hadm : "admin"%string ∈ navPages user
                 ↔ AdminDashboardView user bookings isBookingsLoading ≠ AccessDenied).
  { unfold navPages, AdminDashboardView.
    destruct (isAdmin user), (default false _), isBookingsLoading; simpl;
      status_cases. }
  assert (Hacc : accountButton user = "Sign Out"%string
                 ↔ "dashboard"%string ∈ navPages user).
  { unfold navPages, accountButton.
    destruct (isAdmin user); destruct user as [u |]; simpl;
      [ destruct (isAnonymous u) | | destruct (isAnonymous u) | ]; simpl;
      status_cases. }
  split; [ exact Hfixed | ]. split; [ exact Hdash | ].
  split; [ exact Hadm | ]. split; [ exact Hacc | ].
  intros page Hpage.
  assert (Hcases : page = "home"%string
                   ∨ (page = "dashboard"%string ∧ "dashboard"%string ∈ navPages user)
                   ∨ (page = "admin"%string ∧ "admin"%string ∈ navPages user)
                   ∨ page = "contact"%string).
  { revert Hpage. unfold navPages.
    destruct (default false _), (isAdmin user); simpl; status_cases. }
  destruct Hcases as [-> | [[-> Hin] | [[-> Hin] | ->]]]; [ by right | | | ]; left.
  - change (renderPage false "dashboard" user bookings isBookingsLoading)
      with (DashboardPage (UserDashboardView user bookings isBookingsLoading)).
    apply Hdash in Hin. status_cases.
  - change (renderPage false "admin" user bookings isBookingsLoading)
      with (AdminPanelPage (AdminDashboardView user bookings isBookingsLoading)).
    apply Hadm in Hin. status_cases.
  - change (renderPage false "contact" user bookings isBookingsLoading)
      with ContactPage.
    status_cases.
Qed.

(** ** Authentication *)

(** X13.  The authentication listener always ends the loading state
    and never clears the user it holds: afterwards the user is the one
    the provider reports, or, when the provider reports none and no
    token is configured, the anonymous user just signed in; in every
    other case, a failed fallback included, the user held before is
    still held. *)
Theorem auth_listener_never_clears_user
    (initialAuthToken : option string) (anonymous : AuthReply)
    (currentUser : option User) (st : FirebaseState) :
  f_isLoading (onAuthStateChanged initialAuthToken anonymous currentUser st) = false
  ∧ (is_Some (f_user st) →
     is_Some (f_user (onAuthStateChanged initialAuthToken anonymous currentUser st)))
  ∧ (is_Some currentUser →
     f_user (onAuthStateChanged initialAuthToken anonymous currentUser st)
     = currentUser)
  ∧ (currentUser = None →
     f_user (onAuthStateChanged initialAuthToken anonymous currentUser st)
     = match anonymous with
       | AuthOk guest =>
           if default false (truthy <$> initialAuthToken)
           then f_user st else Some guest
       | AuthFailed _ _ => f_user st
       end).
Proof.
  unfold onAuthStateChanged.
  destruct currentUser as [u |]; simpl.
  - repeat split; try done; by intros [=].
  - destruct (default false (truthy <$> initialAuthToken)), anonymous; simpl;
      repeat split; try done; by intros [? [=]].
Qed.

Lemma auth_listener_never_clears_user_witness :
  f_user (onAuthStateChanged None (AuthFailed "auth/network-request-failed" "offline")
            None (mkFirebaseState (Some riderUser) false))
  = Some riderUser.
Proof.
  refine (eq_trans (proj2 (proj2 (proj2
    (auth_listener_never_clears_user None
       (AuthFailed "auth/network-request-failed" "offline") None
       (mkFirebaseState (Some riderUser) false)))) _) _); reflexivity.
Defined.

(** X14.  After a sign-out, once the anonymous sign-in that the
    listener falls back to has succeeded, the application treats the
    visitor as a guest: the header offers Login/Signup and links to
    home and contact only, the dashboard and the admin page refuse, and
    submitting the booking form writes nothing and leads to the login
    page. *)
Theorem signed_out_visitor_is_guest
    (guest : User) (st : FirebaseState) (bookings : list Booking)
    (isBookingsLoading : bool) (h : HomeState) (store : Store)
    (newId : string) (now : Z) :
  isAnonymous guest = true →
  email guest = None →
  let user := f_user (onAuthStateChanged None (AuthOk guest) None st) in
  user = Some guest
  ∧ accountButton user = "Login/Signup"%string
  ∧ navPages user = ["home"; "contact"]%string
  ∧ renderPage false "dashboard" user bookings isBookingsLoading
    = DashboardPage NotAuthenticatedMessage
  ∧ renderPage false "admin" user bookings isBookingsLoading
    = AdminPanelPage AccessDenied
  ∧ e_store (handleBooking user h store newId now) = store
  ∧ e_page (handleBooking user h store newId now) = Some "login"%string.
Proof.
  intros Hanon Hemail user. subst user. simpl.
  unfold accountButton, navPages, renderPage, UserDashboardView,
    AdminDashboardView, handleBooking, isAdmin.
  simpl. rewrite Hanon, Hemail. simpl. done.
Qed.

Lemma signed_out_visitor_is_guest_witness :
  navPages (f_user (onAuthStateChanged None (AuthOk guestUser) None
                      (mkFirebaseState (Some riderUser) false)))
  = ["home"; "contact"]%string.
Proof.
  refine (proj1 (proj2 (proj2
    (signed_out_visitor_is_guest guestUser
       (mkFirebaseState (Some riderUser) false) [] false sampleForm ∅ "b1" 1000
       _ _)))); reflexivity.
Defined.

(** ** Login and signup *)

Lemma authErrorMessage_truthy (code message : string) :
  truthy (authErrorMessage code message) = true.
Proof.
  unfold authErrorMessage.
  destruct (String.eqb code "auth/email-already-in-use"); [ done | ].
  destruct (_ || _); done.
Qed.

(** X15.  Submitting the login form always ends the loading state and
    keeps the mode, the email and the password.  When the call to the
    provider succeeds the error is empty and the page goes home; when
    it fails the page stays and an error message that is not empty,
    hence displayed, is set.  In login mode only the outcome of the
    sign-in counts, in signup mode only that of the account
    creation. *)
Theorem login_submit_reports_every_failure
    (signIn signUp : AuthReply) (st : LoginState) :
  let after := (handleSubmit signIn signUp st).1 in
  let page := (handleSubmit signIn signUp st).2 in
  l_isLoading after = false
  ∧ l_isLogin after = l_isLogin st
  ∧ l_email after = l_email st
  ∧ l_password after = l_password st
  ∧ match (if l_isLogin st then signIn else signUp) with
    | AuthOk _ => page = Some "home"%string ∧ l_error after = ""%string
    | AuthFailed code message =>
        page = None ∧ truthy (l_error after) = true
        ∧ l_error after = authErrorMessage code message
    end
  ∧ handleSubmit signIn signUp st
    = (if l_isLogin st then handleSubmit signIn signIn st
       else handleSubmit signUp signUp st).
Proof.
  unfold handleSubmit.
  destruct (l_isLogin st); [ destruct signIn | destruct signUp ]; simpl;
    repeat split; apply authErrorMessage_truthy.
Qed.

(** ** Status colours *)

(** X16.  On both dashboards the four statuses are shown in four
    different colour classes, so the class tells the status, and any
    other status text is shown like Pending. *)
Theorem status_colours_tell_statuses_apart (s t : string) :
  validStatus s → validStatus t →
  (RiderPage.getStatusClasses s = RiderPage.getStatusClasses t → s = t)
  ∧ (AdminPage.getStatusClasses s = AdminPage.getStatusClasses t → s = t)
  ∧ ∀ other, ¬ validStatus other →
      RiderPage.getStatusClasses other = RiderPage.getStatusClasses "Pending"
      ∧ AdminPage.getStatusClasses other = AdminPage.getStatusClasses "Pending".
Proof.
  unfold validStatus. rewrite !elem_of_cons, !elem_of_nil.
  intros Hs Ht. split; [ | split ].
  - destruct Hs as [-> | [-> | [-> | [-> | []]]]];
      destruct Ht as [-> | [-> | [-> | [-> | []]]]]; by vm_compute.
  - destruct Hs as [-> | [-> | [-> | [-> | []]]]];
      destruct Ht as [-> | [-> | [-> | [-> | []]]]]; by vm_compute.
  - intros other Hother.
    unfold RiderPage.getStatusClasses, AdminPage.getStatusClasses.
    destruct (String.eqb_spec other "Accepted") as [-> | _];
      [ exfalso; apply Hother; status_cases | ].
    destruct (String.eqb_spec other "Completed") as [-> | _];
      [ exfalso; apply Hother; status_cases | ].
    destruct (String.eqb_spec other "Canceled") as [-> | _];
      [ exfalso; apply Hother; status_cases | ].
    done.
Qed.

Lemma status_colours_tell_statuses_apart_witness :
  RiderPage.getStatusClasses "Rejected" = RiderPage.getStatusClasses "Pending".
Proof.
  refine (proj1 (proj2 (proj2
    (status_colours_tell_statuses_apart "Accepted" "Canceled" _ _))
    "Rejected"%string _));
    unfold validStatus; status_cases.
Defined.

(** ** The workflow over time *)

Lemma step_never_writes_pending (shows : Store → list Booking → Prop)
    (store store' : Store) (i : string) (d : BookingDoc) :
  step shows store store' → store !! i = Some d →
  status d ≠ "Pending"%string →
  ∃ d', store' !! i = Some d' ∧ status d' ≠ "Pending"%string.
Proof.
  intros Hstep Hi Hnp.
  destruct (step_inv _ _ _ Hstep)
    as [-> | [(newId & d0 & Hfresh & _ & ->) | (bs & b & d0 & t & _ & _ & Ht & Hb & ->)]].
  - eauto.
  - exists d. rewrite lookup_insert_ne by congruence. auto.
  - destruct (decide (id b = i)) as [<- | Hne].
    + rewrite lookup_insert_eq. eexists. split; [ reflexivity | ]. simpl.
      apply statusButtons_valid in Ht. revert Ht. status_cases.
    + rewrite lookup_insert_ne by done. eauto.
Qed.

(** X17.  Pending is the status of creation only: no button writes it.
    Once a booking has left Pending it is never Pending again, whatever
    is booked or requested afterwards, from pages up to date or not. *)
Theorem booking_never_returns_to_pending
    (store store' : Store) (docId : string) (d : BookingDoc) :
  rtc (step anySnapshot) store store' →
  store !! docId = Some d →
  status d ≠ "Pending"%string →
  ∃ d', store' !! docId = Some d' ∧ status d' ≠ "Pending"%string.
Proof.
  intros Hsteps. revert d.
  induction Hsteps as [store | store mid store' Hstep _ IH]; intros d Hd Hnp.
  - eauto.
  - destruct (step_never_writes_pending _ _ _ _ _ Hstep Hd Hnp) as (d1 & H1 & Hnp1).
    eauto.
Qed.

Lemma booking_never_returns_to_pending_witness :
  ∃ d', (adminTransition (Some adminUser)
           (onBookingsSnapshot (map_to_list (storeWith "Pending"))) false
           (storeWith "Accepted") "b1" "Canceled").2 !! "b1"%string = Some d'
        ∧ status d' ≠ "Pending"%string.
Proof.
  refine (booking_never_returns_to_pending (storeWith "Accepted") _ "b1"
            (rideOf "U1" "Accepted" 1000) _ _ _).
  - apply rtc_once.
    apply (step_transition anySnapshot (Some adminUser)
             (onBookingsSnapshot (map_to_list (storeWith "Pending")))
             false "b1" "Canceled").
    exact I.
  - reflexivity.
  - discriminate.
Defined.

Lemma step_follows_workflow (store store' : Store) (i : string) (d : BookingDoc) :
  step upToDate store store' → store !! i = Some d → validStatus (status d) →
  ∃ d', store' !! i = Some d'
        ∧ (status d' = status d ∨ workflowEdge (status d) (status d')).
Proof.
  intros Hstep Hi Hvalid.
  destruct (step_inv _ _ _ Hstep)
    as [-> | [(newId & d0 & Hfresh & _ & ->) | (bs & b & d0 & t & Hup & Hin & Ht & Hb & ->)]].
  - eauto.
  - exists d. rewrite lookup_insert_ne by congruence. auto.
  - destruct (decide (id b = i)) as [<- | Hne].
    + rewrite lookup_insert_eq. eexists. split; [ reflexivity | ]. simpl.
      apply Hup in Hin. rewrite Hin in Hi, Hb.
      injection Hi as <-. right. by apply statusButtons_edges.
    + rewrite lookup_insert_ne by done. eauto.
Qed.

Lemma workflowEdge_valid (current target : string) :
  workflowEdge current target → validStatus target.
Proof. unfold workflowEdge, validStatus. status_cases. Qed.

Lemma steps_follow_workflow (store store' : Store) :
  rtc (step upToDate) store store' →
  ∀ i d, store !! i = Some d → validStatus (status d) →
  ∃ d', store' !! i = Some d'
        ∧ rtc workflowEdge (status d) (status d') ∧ validStatus (status d').
Proof.
  induction 1 as [store | store mid store' Hstep _ IH]; intros i d Hd Hvalid.
  - exists d. split; [ exact Hd | ]. split; [ constructor | exact Hvalid ].
  - destruct (step_follows_workflow _ _ _ _ Hstep Hd Hvalid) as (d1 & H1 & Hmove).
    assert (Hvalid1 : validStatus (status d1)).
    { destruct Hmove as [-> | He]; [ done | by eapply workflowEdge_valid ]. }
    destruct (IH _ _ H1 Hvalid1) as (d' & Hd' & Hpath & Hvalid').
    exists d'. split; [ exact Hd' | ]. split; [ | exact Hvalid' ].
    destruct Hmove as [<- | He]; [ done | by eapply rtc_l ].
Qed.

(** X18.  While the admin pages are up to date, the status of a booking
    moves along the workflow only.  Over any sequence of writes the
    status it ends with is reached from the status it had by a path of
    the edges Pending to Accepted, Accepted to Completed, Pending to
    Canceled, Accepted to Canceled; and each single write leaves the
    status as it is or moves it along one edge, so Pending never turns
    Completed at once and no status moves back. *)
Theorem status_follows_workflow_paths
    (store store' : Store) (docId : string) (d : BookingDoc) :
  rtc (step upToDate) store store' →
  store !! docId = Some d →
  validStatus (status d) →
  ∃ d', store' !! docId = Some d'
        ∧ rtc workflowEdge (status d) (status d')
        ∧ ∀ next, step upToDate store' next →
            ∃ d'', next !! docId = Some d''
                   ∧ (status d'' = status d'
                      ∨ workflowEdge (status d') (status d'')).
Proof.
  intros Hsteps Hd Hvalid.
  destruct (steps_follow_workflow _ _ Hsteps _ _ Hd Hvalid)
    as (d' & Hd' & Hpath & Hvalid').
  exists d'. split; [ exact Hd' | ]. split; [ exact Hpath | ].
  intros next Hnext. by eapply step_follows_workflow.
Qed.

Lemma status_follows_workflow_paths_witness :
  ∃ d', (adminTransition (Some adminUser)
           (onBookingsSnapshot (map_to_list (storeWith "Pending"))) false
           (storeWith "Pending") "b1" "Accepted").2 !! "b1"%string = Some d'
        ∧ rtc workflowEdge "Pending" (status d').
Proof.
  destruct (status_follows_workflow_paths (storeWith "Pending")
              (adminTransition (Some adminUser)
                 (onBookingsSnapshot (map_to_list (storeWith "Pending"))) false
                 (storeWith "Pending") "b1" "Accepted").2
              "b1" (rideOf "U1" "Pending" 1000))
    as (d' & Hd' & Hpath & _).
  - apply rtc_once.
    apply (step_transition upToDate (Some adminUser)
             (onBookingsSnapshot (map_to_list (storeWith "Pending")))
             false "b1" "Accepted").
    apply snapshot_upToDate.
  - reflexivity.
  - unfold validStatus. simpl. status_cases.
  - exists d'. split; [ exact Hd' | exact Hpath ].
Defined.

(** ** The admin table *)

(** X19.  The buttons of the admin page act on its own rows only: every
    button names the id of a booking the table shows and one of the
    statuses Accepted, Completed, Canceled; a row has at most two
    buttons; Cancel is on a row exactly when the status shown is
    neither Completed nor Canceled; and there is no button at all
    while the bookings load. *)
Theorem admin_buttons_act_on_shown_rows
    (user : option User) (bookings : list Booking) (isBookingsLoading : bool) :
  (∀ docId target,
     (docId, target)
       ∈ adminButtons (AdminDashboardView user bookings isBookingsLoading) →
     docId ∈ id <$> bookings
     ∧ target ∈ ["Accepted"; "Completed"; "Canceled"]%string)
  ∧ (∀ status, (length (statusButtons status) ≤ 2)%nat)
  ∧ (∀ status, "Canceled"%string ∈ statusButtons status ↔ ¬ terminalStatus status)
  ∧ adminButtons (AdminDashboardView user bookings true) = [].
Proof.
  split; [ | split; [ | split ] ].
  - intros docId target (_ & _ & b & Hb & <- & Ht)%adminButtons_spec.
    split; [ apply list_elem_of_fmap; eauto | by eapply statusButtons_valid ].
  - intros status. unfold statusButtons.
    destruct (String.eqb_spec status "Pending") as [-> | _]; [ simpl; lia | ].
    destruct (String.eqb status "Accepted"),
      (negb (String.eqb status "Canceled") && negb (String.eqb status "Completed"));
      simpl; lia.
  - intros status. rewrite statusButtons_spec. unfold terminalStatus.
    status_cases.
  - unfold AdminDashboardView. by destruct (isAdmin user).
Qed.

(** ** The order of the rows *)

Lemma jsSort_of_sorted (l : list Booking) :
  StronglySorted newestFirst l → jsSort byCreatedAtDesc l = l.
Proof.
  induction 1 as [| x l Hl IH Hx]; simpl; [ done | ].
  rewrite IH. apply jsInsert_front.
  eapply Forall_impl; [ exact Hx | ].
  intros y Hy. unfold newestFirst, byCreatedAtDesc in *. lia.
Qed.

(** X20.  A snapshot that arrives already ordered newest first is shown
    in the order it arrived, bookings created at the same time keeping
    their order of arrival; and ordering the rows a second time changes
    nothing. *)
Theorem ordered_snapshot_is_kept (docs : list (string * BookingDoc)) :
  StronglySorted newestFirst (toBooking <$> docs) →
  onBookingsSnapshot docs = toBooking <$> docs
  ∧ ∀ others, jsSort byCreatedAtDesc (onBookingsSnapshot others)
              = onBookingsSnapshot others.
Proof.
  intros Hsorted. split.
  - by apply jsSort_of_sorted.
  - intros others. apply jsSort_of_sorted, jsSort_newestFirst.
Qed.

Lemma ordered_snapshot_is_kept_witness :
  onBookingsSnapshot [("b2"%string, rideOf "U2" "Accepted" 2000);
                      ("b3"%string, rideOf "U1" "Pending" 2000);
                      ("b1"%string, rideOf "U1" "Pending" 1000)]
  = [mkBooking "b2" (rideOf "U2" "Accepted" 2000);
     mkBooking "b3" (rideOf "U1" "Pending" 2000);
     mkBooking "b1" (rideOf "U1" "Pending" 1000)].
Proof.
  refine (proj1 (ordered_snapshot_is_kept
    [("b2"%string, rideOf "U2" "Accepted" 2000);
     ("b3"%string, rideOf "U1" "Pending" 2000);
     ("b1"%string, rideOf "U1" "Pending" 1000)] _)).
  repeat (constructor; [ | repeat (constructor; [ unfold newestFirst; simpl; lia | ]);
                           try constructor ]).
  constructor.
Defined.
